(** * macaron/render.go: a shallow embedding of the rendering engine

    The development follows the layout of [render.go]: constants, the
    option records, the process-wide registries, [prepareOptions],
    [prepareCharset], [getExt], [compile], the [TplRender] methods.

    Go's [string] and [[]byte] are byte sequences and are modelled by
    [String.string]; Go's [int] status codes by [Z]; Go maps by [gmap].

    The Go libraries the file calls ([strings], [path/filepath],
    [html/template], [net/http]) are modelled next to their first use, each
    to the extent [render.go] exercises them.

    The model is sequential: [lock] is not represented.  A function that
    can panic returns an [outcome]; a Go [error] result is a value. *)

From Stdlib Require Import ZArith Ascii String List Lia.
From stdpp Require Import base option list strings gmap.

Local Open Scope string_scope.

(** ** Strings *)

(** The double quote character, which [fmt.Errorf] puts around names. *)
Definition dquote : string := String (ascii_of_nat 34) EmptyString.

Module strings.

(** [strings.Index(s, sep)] for a one-byte [sep]: position of the first
    occurrence, [-1] when there is none. *)
Fixpoint Index (s : string) (sep : ascii) : Z :=
  match s with
  | EmptyString => (-1)%Z
  | String a s' =>
      if Ascii.eqb a sep then 0%Z
      else let i := Index s' sep in
           if (i =? -1)%Z then (-1)%Z else (i + 1)%Z
  end.

(** [strings.Split(s, sep)] for a one-byte [sep]: the pieces between
    the separators; an input without separator is returned whole. *)
Fixpoint Split (s : string) (sep : ascii) : list string :=
  match s with
  | EmptyString => [EmptyString]
  | String a s' =>
      if Ascii.eqb a sep then EmptyString :: Split s' sep
      else match Split s' sep with
           | [] => [String a EmptyString]
           | piece :: pieces => String a piece :: pieces
           end
  end.

(** [strings.Join(elems, sep)]. *)
Fixpoint Join (elems : list string) (sep : string) : string :=
  match elems with
  | [] => EmptyString
  | [e] => e
  | e :: rest => e +:+ sep +:+ Join rest sep
  end.

(** [strings.Replace(s, old, new, -1)] for one-byte [old] and [new]. *)
Fixpoint ReplaceByte (s : string) (old new : ascii) : string :=
  match s with
  | EmptyString => EmptyString
  | String a s' =>
      String (if Ascii.eqb a old then new else a) (ReplaceByte s' old new)
  end.

(** Does the byte occur in the string. *)
Fixpoint ContainsByte (s : string) (c : ascii) : bool :=
  match s with
  | EmptyString => false
  | String a s' => Ascii.eqb a c || ContainsByte s' c
  end.

End strings.

(** [s[i:]] and [s[0:n]] on byte strings. *)
Fixpoint drop_bytes (i : nat) (s : string) : string :=
  match i, s with
  | O, _ => s
  | S i', String _ s' => drop_bytes i' s'
  | S _, EmptyString => EmptyString
  end.

Fixpoint take_bytes (n : nat) (s : string) : string :=
  match n, s with
  | S n', String a s' => String a (take_bytes n' s')
  | _, _ => EmptyString
  end.

Definition dot : ascii := ascii_of_nat 46.

(** [getExt], render.go lines 170-175. *)
Definition getExt (s : string) : string :=
  if (strings.Index s dot =? -1)%Z then EmptyString
  else "." +:+ strings.Join (tail (strings.Split s dot)) ".".

(** ** Host path conventions ([path/filepath]) *)

Inductive host := Unix | Windows.

Module filepath.

(** [filepath.Separator]. *)
Definition Separator (h : host) : ascii :=
  match h with
  | Unix => ascii_of_nat 47
  | Windows => ascii_of_nat 92
  end.

(** [filepath.ToSlash]: the identity where the separator is the slash,
    otherwise every separator is replaced by a slash. *)
Definition ToSlash (h : host) (path : string) : string :=
  if Ascii.eqb (Separator h) (ascii_of_nat 47) then path
  else strings.ReplaceByte path (Separator h) (ascii_of_nat 47).

(** [filepath.Rel(dir, path)] for a [path] that [filepath.Walk(dir, _)]
    hands to its callback: the components below [dir] joined by the
    host separator, and ["."] for [dir] itself.  [Rel] cannot fail on
    such a path. *)
Definition Rel (h : host) (components : list string) : string :=
  match components with
  | [] => "."
  | _ => strings.Join components (String (Separator h) EmptyString)
  end.

End filepath.

(** ** Values, errors and outcomes *)

(** Go's [interface{}] payloads that reach the engine.  The template
    fragment modelled below only prints them, so two shapes suffice. *)
Inductive value :=
| VNil
| VStr (s : string).

(** Go [error] values.  [Errorf] is an error built from a message;
    [Wrapped] is [fmt.Errorf(prefix + "%w", cause)]. *)
Inductive error :=
| Errorf (msg : string)
| Wrapped (prefix : string) (cause : error).

(** [err.Error()]. *)
Fixpoint Error (e : error) : string :=
  match e with
  | Errorf msg => msg
  | Wrapped prefix cause => prefix +:+ Error cause
  end.

(** The innermost error of a chain. *)
Fixpoint root_cause (e : error) : error :=
  match e with
  | Errorf msg => Errorf msg
  | Wrapped _ cause => root_cause cause
  end.

(** What a Go [panic] carries. *)
Inductive panic_value :=
| NilDereference
| PanicError (e : error)
| PanicString (s : string).

(** A call either returns, panics, or (in the model) exhausts the fuel
    that bounds nested template execution. *)
Inductive outcome (A : Type) :=
| Ok (a : A)
| Panic (p : panic_value)
| OutOfFuel.

Arguments Ok {A} a.
Arguments Panic {A} p.
Arguments OutOfFuel {A}.

Definition obind {A B} (m : outcome A) (k : A -> outcome B) : outcome B :=
  match m with
  | Ok a => k a
  | Panic p => Panic p
  | OutOfFuel => OutOfFuel
  end.

Notation "x <- m ;; k" := (obind m (fun x => k))
  (at level 100, m at next level, right associativity).

(** ** Constants (render.go lines 36-45, 125-127) *)

Definition ContentType : string := "Content-Type".
Definition ContentLength : string := "Content-Length".
Definition ContentBinary : string := "application/octet-stream".
Definition ContentJSON : string := "application/json".
Definition ContentHTML : string := "text/html".
Definition ContentXHTML : string := "application/xhtml+xml".
Definition ContentXML : string := "text/xml".
Definition defaultCharset : string := "UTF-8".
Definition _DEFAULT_TPL_SET_NAME : string := "DEFAULT".

(** ** The template engine ([html/template])

    The fragment modelled: template text made of literal text, the
    action [{{.}}] and calls [{{name}}] of niladic functions of the
    tree's function table, all in HTML text context.  The engine's
    builtin functions and its control actions are outside the fragment,
    and so are [{{define}}] blocks, the contexts other than text, and
    what the escaper does to literal text (comments are dropped, a [<]
    that opens no tag is escaped). *)

(** A function of a [template.FuncMap], given by what calling it does.
    [HelperYield] and [HelperCurrent] are the two entries of
    [helperFuncs]; [LayoutYield] and [LayoutCurrent] are the closures
    [addYield] builds, with the variables they capture; the [User_]
    entries are functions supplied through [RenderOptions.Funcs], given
    by their result (a [string], a [template.HTML], or an error). *)
Inductive helper :=
| HelperYield
| HelperCurrent
| LayoutYield (tplName : string) (data : value)
| LayoutCurrent (tplName : string)
| UserString (s : string)
| UserHTML (s : string)
| UserError (e : error).

Abbreviation FuncMap := (gmap string helper).

Inductive action :=
| AText (s : string)
| ADot
| ACall (fn : string).

Record Delims := mkDelims { Left : string; Right : string }.

(** A [*template.Template] with everything it shares with its associated
    templates: the function table and the set of named nodes. *)
Record Template := mkTemplate {
  tName : string;
  tDelims : Delims;
  tFuncs : FuncMap;
  tSet : gmap string (list action)
}.

(** The escaper of HTML text context: [htmlReplacementTable]. *)
Definition htmlReplacement (a : ascii) : string :=
  match nat_of_ascii a with
  | 0 => String (ascii_of_nat 239) (String (ascii_of_nat 191)
           (String (ascii_of_nat 189) EmptyString))
  | 34 => "&#34;"
  | 38 => "&amp;"
  | 39 => "&#39;"
  | 43 => "&#43;"
  | 60 => "&lt;"
  | 62 => "&gt;"
  | _ => String a EmptyString
  end.

Fixpoint htmlEscaper (s : string) : string :=
  match s with
  | EmptyString => EmptyString
  | String a s' => htmlReplacement a +:+ htmlEscaper s'
  end.

(** Printing [.] in text context: a string is escaped, nil prints
    nothing. *)
Definition printValue (v : value) : string :=
  match v with
  | VNil => EmptyString
  | VStr s => htmlEscaper s
  end.

Module template.

(** [template.New(name)]. *)
Definition New (name : string) : Template :=
  mkTemplate name (mkDelims EmptyString EmptyString) ∅ ∅.

(** [t.Delims(left, right)]. *)
Definition SetDelims (t : Template) (left right : string) : Template :=
  mkTemplate (tName t) (mkDelims left right) (tFuncs t) (tSet t).

(** [t.Funcs(funcMap)]: the entries of [funcMap] are added to the shared
    table, replacing entries of the same name. *)
Definition Funcs (t : Template) (funcMap : FuncMap) : Template :=
  mkTemplate (tName t) (tDelims t) (funcMap ∪ tFuncs t) (tSet t).

(** An empty delimiter stands for the default. *)
Definition leftDelim (d : Delims) : string :=
  match Left d with EmptyString => "{{" | l => l end.
Definition rightDelim (d : Delims) : string :=
  match Right d with EmptyString => "}}" | r => r end.

Definition isSpace (a : ascii) : bool :=
  match nat_of_ascii a with
  | 32 | 9 | 13 | 10 => true
  | _ => false
  end.

Fixpoint trimLeft (s : string) : string :=
  match s with
  | String a s' => if isSpace a then trimLeft s' else s
  | EmptyString => EmptyString
  end.

Fixpoint trimRight (s : string) : string :=
  match s with
  | EmptyString => EmptyString
  | String a s' =>
      match trimRight s' with
      | EmptyString => if isSpace a then EmptyString else String a EmptyString
      | rest => String a rest
      end
  end.

Definition isAlpha (a : ascii) : bool :=
  let n := nat_of_ascii a in
  ((65 <=? n)%nat && (n <=? 90)%nat) || ((97 <=? n)%nat && (n <=? 122)%nat)
  || (n =? 95)%nat.

Definition isAlphaNumeric (a : ascii) : bool :=
  let n := nat_of_ascii a in
  isAlpha a || ((48 <=? n)%nat && (n <=? 57)%nat).

Fixpoint allAlphaNumeric (s : string) : bool :=
  match s with
  | EmptyString => true
  | String a s' => isAlphaNumeric a && allAlphaNumeric s'
  end.

Definition keywords : list string :=
  ["block"; "break"; "continue"; "define"; "else"; "end"; "if"; "nil";
   "range"; "template"; "with"; "true"; "false"].

Definition isIdentifier (s : string) : bool :=
  match s with
  | EmptyString => false
  | String a s' =>
      isAlpha a && allAlphaNumeric s' && negb (bool_decide (s ∈ keywords))
  end.

(** One action between delimiters.  A function must be in the table when
    the text is parsed; anything outside the fragment is refused. *)
Definition parseAction (funcs : FuncMap) (inner : string) : option action :=
  let cmd := trimRight (trimLeft inner) in
  if String.eqb cmd "." then Some ADot
  else if isIdentifier cmd then
    match funcs !! cmd with
    | Some _ => Some (ACall cmd)
    | None => None
    end
  else None.

Fixpoint parseText (fuel : nat) (left right : string) (funcs : FuncMap)
    (text : string) : option (list action) :=
  match fuel with
  | O => None
  | S fuel' =>
      match String.index 0 left text with
      | None =>
          Some (match text with EmptyString => [] | _ => [AText text] end)
      | Some i =>
          let before := take_bytes i text in
          let after := drop_bytes (i + String.length left) text in
          match String.index 0 right after with
          | None => None
          | Some j =>
              match parseAction funcs (take_bytes j after) with
              | None => None
              | Some act =>
                  match parseText fuel' left right funcs
                          (drop_bytes (j + String.length right) after) with
                  | None => None
                  | Some rest =>
                      Some (match before with
                            | EmptyString => act :: rest
                            | _ => AText before :: act :: rest
                            end)
                  end
              end
          end
      end
  end.

(** [tmpl.Parse(text)] for the node [name] of the tree [t] ([t] itself
    when [name] is [tName t], the result of [t.New(name)] otherwise).
    A node of that name already in the set is replaced.  [None] is a
    parse error.  (Two cases of the engine are not modelled: an empty
    text leaves a node that is already defined as it is, and [t.New]
    with the name of the root starts a fresh tree.) *)
Definition Parse (t : Template) (name : string) (text : string)
    : option Template :=
  match parseText (S (String.length text)) (leftDelim (tDelims t))
          (rightDelim (tDelims t)) (tFuncs t) text with
  | None => None
  | Some body =>
      Some (mkTemplate (tName t) (tDelims t) (tFuncs t) (<[name := body]> (tSet t)))
  end.

(** The error of the engine when calling [fn] fails while executing
    [tmpl].  (The engine also prints a line and column after the
    template's name; positions are not modelled.) *)
Definition callError (tmpl fn : string) (cause : error) : error :=
  Wrapped ("template: " +:+ tmpl +:+ ": executing " +:+ dquote +:+ tmpl
           +:+ dquote +:+ " at <" +:+ fn +:+ ">: error calling " +:+ fn +:+ ": ")
          cause.

Definition undefinedError (name : string) : error :=
  Errorf ("html/template: " +:+ dquote +:+ name +:+ dquote +:+ " is undefined").

(** Executing the actions of the node [tmpl]: output is appended to the
    buffer [buf]; the first error stops the execution, leaving what was
    written.  [run name data] executes another node of the same tree into
    a fresh buffer: it is what the closure of [addYield] calls.  Literal
    text is written as it is, and the result of an action is escaped for
    HTML text context unless it is a [template.HTML]. *)
Fixpoint execActions
    (run : string -> value -> outcome (string * option error))
    (funcs : FuncMap) (tmpl : string) (data : value)
    (body : list action) (buf : string) : outcome (string * option error) :=
  match body with
  | [] => Ok (buf, None)
  | AText s :: rest => execActions run funcs tmpl data rest (buf +:+ s)
  | ADot :: rest =>
      execActions run funcs tmpl data rest (buf +:+ printValue data)
  | ACall fn :: rest =>
      match funcs !! fn with
      | None =>
          Ok (buf, Some (Errorf ("template: " +:+ tmpl +:+ ": " +:+ dquote
                                +:+ fn +:+ dquote +:+ " is not a defined function")))
      | Some HelperYield =>
          Ok (buf, Some (callError tmpl fn
                           (Errorf "yield called with no layout defined")))
      | Some HelperCurrent =>
          execActions run funcs tmpl data rest (buf +:+ htmlEscaper EmptyString)
      | Some (LayoutYield tplName captured) =>
          r <- run tplName captured ;;
          match r with
          | (out, None) => execActions run funcs tmpl data rest (buf +:+ out)
          | (_, Some err) => Ok (buf, Some (callError tmpl fn err))
          end
      | Some (LayoutCurrent tplName) =>
          execActions run funcs tmpl data rest (buf +:+ htmlEscaper tplName)
      | Some (UserString s) =>
          execActions run funcs tmpl data rest (buf +:+ htmlEscaper s)
      | Some (UserHTML s) =>
          execActions run funcs tmpl data rest (buf +:+ s)
      | Some (UserError e) => Ok (buf, Some (callError tmpl fn e))
      end
  end.

(** [t.ExecuteTemplate(buf, name, data)] on an empty buffer. *)
Fixpoint ExecuteTemplate (fuel : nat) (t : Template) (name : string)
    (data : value) : outcome (string * option error) :=
  match fuel with
  | O => OutOfFuel
  | S fuel' =>
      match tSet t !! name with
      | None => Ok (EmptyString, Some (undefinedError name))
      | Some body =>
          execActions (fun n d => ExecuteTemplate fuel' t n d)
            (tFuncs t) name data body EmptyString
      end
  end.

End template.

(** ** The output sink ([net/http])

    An [http.ResponseWriter] that records what it is given: the header
    map, the status line once written, the body bytes, and the sequence
    of calls it received. *)

Inductive call :=
| CallHeaderSet (key val : string)
| CallHeaderDel (key : string)
| CallWriteHeader (code : Z)
| CallWrite (bytes : string).

Record ResponseWriter := mkResponseWriter {
  Header : gmap string (list string);
  Status : option Z;
  Body : string;
  Calls : list call
}.

Module http.

Definition StatusOK : Z := 200.
Definition StatusInternalServerError : Z := 500.

(** [w.Header().Get(key)]: the first value, or the empty string. *)
Definition HeaderGet (w : ResponseWriter) (key : string) : string :=
  match Header w !! key with
  | Some (v :: _) => v
  | _ => EmptyString
  end.

(** [w.Header().Set(key, val)]. *)
Definition HeaderSet (w : ResponseWriter) (key val : string) : ResponseWriter :=
  mkResponseWriter (<[key := [val]]> (Header w)) (Status w) (Body w)
    (Calls w ++ [CallHeaderSet key val]).

(** [w.Header().Del(key)]. *)
Definition HeaderDel (w : ResponseWriter) (key : string) : ResponseWriter :=
  mkResponseWriter (delete key (Header w)) (Status w) (Body w)
    (Calls w ++ [CallHeaderDel key]).

(** [w.WriteHeader(code)]: only the first status line counts. *)
Definition WriteHeader (w : ResponseWriter) (code : Z) : ResponseWriter :=
  mkResponseWriter (Header w)
    (match Status w with None => Some code | Some c => Some c end)
    (Body w) (Calls w ++ [CallWriteHeader code]).

(** [w.Write(bytes)]: a write before any status line implies 200. *)
Definition Write_ (w : ResponseWriter) (bytes : string) : ResponseWriter :=
  mkResponseWriter (Header w)
    (match Status w with None => Some StatusOK | Some c => Some c end)
    (Body w +:+ bytes) (Calls w ++ [CallWrite bytes]).

Definition newline : string := String (ascii_of_nat 10) EmptyString.

(** [http.Error(w, error, code)]: plain-text content type, the status
    line, then the message and a newline. *)
Definition Error_ (w : ResponseWriter) (msg : string) (code : Z)
    : ResponseWriter :=
  let w := HeaderDel w "Content-Length" in
  let w := HeaderSet w "Content-Type" "text/plain; charset=utf-8" in
  let w := HeaderSet w "X-Content-Type-Options" "nosniff" in
  let w := WriteHeader w code in
  Write_ w (msg +:+ newline).

End http.

(** [io.Copy(w, buf)] from a [bytes.Buffer]: one write of the unread
    bytes, none when the buffer is empty. *)
Definition io_Copy (w : ResponseWriter) (buf : string) : ResponseWriter :=
  match buf with
  | EmptyString => w
  | _ => http.Write_ w buf
  end.

(** ** Options (render.go lines 62-104) *)

Record RenderOptions := mkRenderOptions {
  Name : string;
  Directory : string;
  Layout : string;
  Extensions : list string;
  Funcs : list FuncMap;
  Delims_ : Delims;
  Charset : string;
  IndentJSON : bool;
  IndentXML : bool;
  PrefixJSON : string;
  PrefixXML : string;
  HTMLContentType : string
}.

(** The zero value of [RenderOptions]. *)
Definition zeroRenderOptions : RenderOptions :=
  mkRenderOptions EmptyString EmptyString EmptyString [] []
    (mkDelims EmptyString EmptyString) EmptyString false false
    EmptyString EmptyString EmptyString.

Definition withName (o : RenderOptions) (v : string) : RenderOptions :=
  mkRenderOptions v (Directory o) (Layout o) (Extensions o) (Funcs o)
    (Delims_ o) (Charset o) (IndentJSON o) (IndentXML o) (PrefixJSON o)
    (PrefixXML o) (HTMLContentType o).

Definition withDirectory (o : RenderOptions) (v : string) : RenderOptions :=
  mkRenderOptions (Name o) v (Layout o) (Extensions o) (Funcs o)
    (Delims_ o) (Charset o) (IndentJSON o) (IndentXML o) (PrefixJSON o)
    (PrefixXML o) (HTMLContentType o).

Definition withExtensions (o : RenderOptions) (v : list string)
    : RenderOptions :=
  mkRenderOptions (Name o) (Directory o) (Layout o) v (Funcs o)
    (Delims_ o) (Charset o) (IndentJSON o) (IndentXML o) (PrefixJSON o)
    (PrefixXML o) (HTMLContentType o).

Definition withHTMLContentType (o : RenderOptions) (v : string)
    : RenderOptions :=
  mkRenderOptions (Name o) (Directory o) (Layout o) (Extensions o) (Funcs o)
    (Delims_ o) (Charset o) (IndentJSON o) (IndentXML o) (PrefixJSON o)
    (PrefixXML o) v.

(** [HTMLOptions]: the per-call override of the layout. *)
Record HTMLOptions := mkHTMLOptions { HTMLOptions_Layout : string }.

(** ** Process-wide state (render.go lines 47-60, 129-133) *)

(** [helperFuncs]. *)
Definition helperFuncs : FuncMap :=
  <["yield" := HelperYield]> (<["current" := HelperCurrent]> ∅).

(** [tplSets] and [tplSetOpts].  Both Go maps hold pointers; a missing
    key reads as the nil pointer, here [None].  A tree is reachable from
    [tplSets] only, so a mutation through the pointer is a write of the
    mutated tree at its key. *)
Record Globals := mkGlobals {
  tplSets : gmap string Template;
  tplSetOpts : gmap string RenderOptions
}.

(** What the engine reads from outside [render.go]: the mode [Env]
    (declared elsewhere in the package), the host's path convention, the
    clock, and the file system as [filepath.Walk] and [ioutil.ReadFile]
    show it. *)
Inductive mode := DEV | PROD.

(** One visit of [filepath.Walk(dir, _)]: the components of the visited
    path below [dir] (none for [dir] itself) and what [ioutil.ReadFile]
    returns for it ([None]: an error, as for a directory). *)
Record entry := mkEntry {
  below : list string;
  contents : option string
}.

Record Process := mkProcess {
  Env : mode;
  Host : host;
  Walk : string -> list entry;
  Now : Z
}.

(** The marshalers of [encoding/json] and [encoding/xml]. *)
Record Marshalers := mkMarshalers {
  json_Marshal : value -> string + error;
  json_MarshalIndent : value -> string + error;
  xml_Marshal : value -> string + error;
  xml_MarshalIndent : value -> string + error
}.

(** ** [prepareOptions], render.go lines 135-160 *)

Definition prepareOptions (options : list RenderOptions) (g : Globals)
    : Globals * RenderOptions :=
  let opt := match options with
             | o :: _ => o
             | [] => zeroRenderOptions
             end in
  let opt := if (String.length (Name opt) =? 0)%nat
             then withName opt _DEFAULT_TPL_SET_NAME else opt in
  let opt := if (String.length (Directory opt) =? 0)%nat
             then withDirectory opt "templates" else opt in
  let opt := if (length (Extensions opt) =? 0)%nat
             then withExtensions opt [".tmpl"; ".html"] else opt in
  let opt := if (String.length (HTMLContentType opt) =? 0)%nat
             then withHTMLContentType opt ContentHTML else opt in
  (mkGlobals (tplSets g) (<[Name opt := opt]> (tplSetOpts g)), opt).

(** ** [prepareCharset], render.go lines 162-168 *)

Definition prepareCharset (charset : string) : string :=
  if negb (String.length charset =? 0)%nat then "; charset=" +:+ charset
  else "; charset=" +:+ defaultCharset.

(** ** [compile], render.go lines 177-223 *)

(** [template.Must]: a parse error becomes a panic. *)
Definition Must (name : string) (parsed : option Template) : outcome Template :=
  match parsed with
  | Some t => Ok t
  | None => Panic (PanicError (Errorf ("template: " +:+ name +:+ ": parse error")))
  end.

(** The loop over [options.Extensions] in the walk callback, lines
    192-212: the first extension equal to [ext] reads the file, names
    the node, merges the function tables, parses, and leaves the loop. *)
Fixpoint forExtensions (h : host) (options : RenderOptions) (e : entry)
    (r ext : string) (extensions : list string) (t : Template)
    : outcome Template :=
  match extensions with
  | [] => Ok t
  | extension :: rest =>
      if String.eqb ext extension then
        match contents e with
        | None => Panic (PanicError (Errorf ("open " +:+ r +:+ ": read error")))
        | Some buf =>
            let name := take_bytes (String.length r - String.length ext) r in
            let node := filepath.ToSlash h name in
            let t := fold_left template.Funcs (Funcs options) t in
            Must node (template.Parse (template.Funcs t helperFuncs) node buf)
        end
      else forExtensions h options e r ext rest t
  end.

(** The walk callback, lines 184-215. *)
Definition walkFn (h : host) (options : RenderOptions) (t : Template)
    (e : entry) : outcome Template :=
  let r := filepath.Rel h (below e) in
  let ext := getExt r in
  forExtensions h options e r ext (Extensions options) t.

Fixpoint walkAll (h : host) (options : RenderOptions) (entries : list entry)
    (t : Template) : outcome Template :=
  match entries with
  | [] => Ok t
  | e :: rest =>
      t' <- walkFn h options t e ;;
      walkAll h options rest t'
  end.

Definition compile (p : Process) (options : option RenderOptions)
    (g : Globals) : outcome Globals :=
  match options with
  | None => Panic NilDereference
  | Some options =>
      let dir := Directory options in
      let t := template.New dir in
      let t := template.SetDelims t (Left (Delims_ options))
                 (Right (Delims_ options)) in
      t <- Must dir (template.Parse t dir "Macaron") ;;
      t <- walkAll (Host p) options (Walk p dir) t ;;
      Ok (mkGlobals (<[Name options := t]> (tplSets g)) (tplSetOpts g))
  end.

(** ** [TplRender], render.go lines 256-263 *)

Record TplRender := mkTplRender {
  RW : ResponseWriter;
  Opt : RenderOptions;
  CompiledCharset : string;
  startTime : option Z
}.

Definition withRW (r : TplRender) (w : ResponseWriter) : TplRender :=
  mkTplRender w (Opt r) (CompiledCharset r) (startTime r).

(** [Renderer], lines 232-254: the options are resolved, the charset
    suffix computed, the set compiled; the handler builds one
    [TplRender] per request around the request's sink. *)
Definition Renderer (p : Process) (options : list RenderOptions)
    (g : Globals) : outcome (Globals * (ResponseWriter -> TplRender)) :=
  let '(g, opt) := prepareOptions options g in
  let cs := prepareCharset (Charset opt) in
  g <- compile p (Some opt) g ;;
  Ok (g, fun rw => mkTplRender rw opt cs None).

(** [JSON], lines 269-289. *)
Definition JSON (m : Marshalers) (r : TplRender) (status : Z) (v : value)
    : TplRender :=
  let marshaled := if IndentJSON (Opt r) then json_MarshalIndent m v
                   else json_Marshal m v in
  match marshaled with
  | inr err => withRW r (http.Error_ (RW r) (Error err) 500)
  | inl result =>
      let w := http.HeaderSet (RW r) ContentType
                 (ContentJSON +:+ CompiledCharset r) in
      let w := http.WriteHeader w status in
      let w := if (0 <? String.length (PrefixJSON (Opt r)))%nat
               then http.Write_ w (PrefixJSON (Opt r)) else w in
      withRW r (http.Write_ w result)
  end.

(** [JSONString], lines 291-303. *)
Definition JSONString (m : Marshalers) (r : TplRender) (v : value)
    : string * option error :=
  let marshaled := if IndentJSON (Opt r) then json_MarshalIndent m v
                   else json_Marshal m v in
  match marshaled with
  | inr err => (EmptyString, Some err)
  | inl result => (result, None)
  end.

(** [XML], lines 305-325. *)
Definition XML (m : Marshalers) (r : TplRender) (status : Z) (v : value)
    : TplRender :=
  let marshaled := if IndentXML (Opt r) then xml_MarshalIndent m v
                   else xml_Marshal m v in
  match marshaled with
  | inr err => withRW r (http.Error_ (RW r) (Error err) 500)
  | inl result =>
      let w := http.HeaderSet (RW r) ContentType
                 (ContentXML +:+ CompiledCharset r) in
      let w := http.WriteHeader w status in
      let w := if (0 <? String.length (PrefixXML (Opt r)))%nat
               then http.Write_ w (PrefixXML (Opt r)) else w in
      withRW r (http.Write_ w result)
  end.

(** [data], lines 327-333. *)
Definition data (r : TplRender) (status : Z) (contentType : string)
    (v : string) : TplRender :=
  let w := if String.eqb (http.HeaderGet (RW r) ContentType) EmptyString
           then http.HeaderSet (RW r) ContentType contentType
           else RW r in
  let w := http.WriteHeader w status in
  withRW r (http.Write_ w v).

(** [RawData] and [RenderData], lines 335-341. *)
Definition RawData (r : TplRender) (status : Z) (v : string) : TplRender :=
  data r status ContentBinary v.

Definition RenderData (r : TplRender) (status : Z) (v : string) : TplRender :=
  data r status ContentHTML v.

(** Modelled from the spec: [bufpool.Get] of the package's [bpool] (not
    part of [render.go]) hands out a fresh buffer, that is an empty one. *)
Definition bufpool_Get : string := EmptyString.

(** [execute], lines 343-346. *)
Definition execute (fuel : nat) (t : Template) (name : string) (v : value)
    : outcome (string * option error) :=
  r <- template.ExecuteTemplate fuel t name v ;;
  Ok (bufpool_Get +:+ fst r, snd r).

(** [addYield], lines 348-360: the tree's [yield] and [current] are
    rebound to closures over [t], [tplName] and [data]. *)
Definition addYield (t : Template) (tplName : string) (v : value) : Template :=
  let funcs : FuncMap :=
    <["yield" := LayoutYield tplName v]>
      (<["current" := LayoutCurrent tplName]> ∅) in
  template.Funcs t funcs.

(** [prepareHTMLOptions], lines 452-460. *)
Definition prepareHTMLOptions (r : TplRender) (htmlOpt : list HTMLOptions)
    : HTMLOptions :=
  match htmlOpt with
  | o :: _ => o
  | [] => mkHTMLOptions (Layout (Opt r))
  end.

Definition undefinedSet (tplName : string) : error :=
  Errorf ("html/template: template " +:+ dquote +:+ tplName +:+ dquote
          +:+ " is undefined").

(** [renderBytes], lines 362-389.  The result is the pair the Go code
    returns: the buffer or the error. *)
Definition renderBytes (fuel : nat) (p : Process) (r : TplRender)
    (setName tplName : string) (v : value) (htmlOpt : list HTMLOptions)
    (g : Globals) : outcome (Globals * (string + error)) :=
  let renderOpt := tplSetOpts g !! setName in
  g <- match Env p with
       | DEV => compile p renderOpt g
       | PROD => Ok g
       end ;;
  match tplSets g !! setName with
  | None => Ok (g, inr (undefinedSet tplName))
  | Some t =>
      let opt := prepareHTMLOptions r htmlOpt in
      let '(t, g, tplName) :=
        if (0 <? String.length (HTMLOptions_Layout opt))%nat then
          let t := addYield t tplName v in
          (t, mkGlobals (<[setName := t]> (tplSets g)) (tplSetOpts g),
           HTMLOptions_Layout opt)
        else (t, g, tplName) in
      res <- execute fuel t tplName v ;;
      match res with
      | (_, Some err) => Ok (g, inr err)
      | (out, None) => Ok (g, inl out)
      end
  end.

(** [renderHTML], lines 391-405. *)
Definition renderHTML (fuel : nat) (p : Process) (r : TplRender)
    (status : Z) (setName tplName : string) (v : value)
    (htmlOpt : list HTMLOptions) (g : Globals)
    : outcome (Globals * TplRender) :=
  let r := mkTplRender (RW r) (Opt r) (CompiledCharset r) (Some (Now p)) in
  res <- renderBytes fuel p r setName tplName v htmlOpt g ;;
  match res with
  | (g, inr err) =>
      Ok (g, withRW r (http.Error_ (RW r) (Error err)
                         http.StatusInternalServerError))
  | (g, inl out) =>
      let w := http.HeaderSet (RW r) ContentType
                 (HTMLContentType (Opt r) +:+ CompiledCharset r) in
      let w := http.WriteHeader w status in
      Ok (g, withRW r (io_Copy w out))
  end.

(** [HTML] and [HTMLSet], lines 407-413. *)
Definition HTML (fuel : nat) (p : Process) (r : TplRender) (status : Z)
    (name : string) (v : value) (htmlOpt : list HTMLOptions) (g : Globals)
    : outcome (Globals * TplRender) :=
  renderHTML fuel p r status _DEFAULT_TPL_SET_NAME name v htmlOpt g.

Definition HTMLSet (fuel : nat) (p : Process) (r : TplRender) (status : Z)
    (setName tplName : string) (v : value) (htmlOpt : list HTMLOptions)
    (g : Globals) : outcome (Globals * TplRender) :=
  renderHTML fuel p r status setName tplName v htmlOpt g.

(** [renderHTMLString], [HTMLString], [HTMLSetString], lines 415-429. *)
Definition renderHTMLString (fuel : nat) (p : Process) (r : TplRender)
    (setName tplName : string) (v : value) (htmlOpt : list HTMLOptions)
    (g : Globals) : outcome (Globals * (string * option error)) :=
  res <- renderBytes fuel p r setName tplName v htmlOpt g ;;
  match res with
  | (g, inr err) => Ok (g, (EmptyString, Some err))
  | (g, inl out) => Ok (g, (out, None))
  end.

Definition HTMLString (fuel : nat) (p : Process) (r : TplRender)
    (name : string) (v : value) (htmlOpt : list HTMLOptions) (g : Globals)
    : outcome (Globals * (string * option error)) :=
  renderHTMLString fuel p r _DEFAULT_TPL_SET_NAME name v htmlOpt g.

Definition HTMLSetString (fuel : nat) (p : Process) (r : TplRender)
    (setName tplName : string) (v : value) (htmlOpt : list HTMLOptions)
    (g : Globals) : outcome (Globals * (string * option error)) :=
  renderHTMLString fuel p r setName tplName v htmlOpt g.

(** ** Specification helpers *)

(** The suffix of [s] that starts at the first occurrence of [c]; empty
    when [c] does not occur. *)
Fixpoint from_first (c : ascii) (s : string) : string :=
  match s with
  | EmptyString => EmptyString
  | String a s' => if Ascii.eqb a c then s else from_first c s'
  end.

(** The name [compile] gives the node of a walked entry (lines 200-201)
    and whether the entry's extension is one of the configured ones
    (lines 190-193). *)
Definition nodeName (h : host) (e : entry) : string :=
  let r := filepath.Rel h (below e) in
  filepath.ToSlash h
    (take_bytes (String.length r - String.length (getExt r)) r).

Definition matched (h : host) (options : RenderOptions) (e : entry) : bool :=
  bool_decide (getExt (filepath.Rel h (below e)) ∈ Extensions options).

(** The first step of [renderBytes] (lines 363-366): in development
    mode the set is recompiled from its registered configuration. *)
Definition recompiled (p : Process) (setName : string) (g : Globals)
    : outcome Globals :=
  match Env p with
  | DEV => compile p (tplSetOpts g !! setName) g
  | PROD => Ok g
  end.

(** The last step of [renderBytes] (lines 383-388): the buffer or the
    error. *)
Definition returned (res : string * option error) : string + error :=
  match res with
  | (_, Some err) => inr err
  | (out, None) => inl out
  end.

(** The marshaler [JSON] and [XML] select (lines 272-276, 308-312). *)
Definition selectedJSON (m : Marshalers) (r : TplRender) (v : value)
    : string + error :=
  if IndentJSON (Opt r) then json_MarshalIndent m v else json_Marshal m v.

Definition selectedXML (m : Marshalers) (r : TplRender) (v : value)
    : string + error :=
  if IndentXML (Opt r) then xml_MarshalIndent m v else xml_Marshal m v.

(** The layout an HTML render call resolves to. *)
Definition resolvedLayout (r : TplRender) (htmlOpt : list HTMLOptions)
    : string :=
  HTMLOptions_Layout (prepareHTMLOptions r htmlOpt).

(** The fields [prepareOptions] defaults are all unset. *)
Definition unset (o : RenderOptions) : Prop :=
  Name o = EmptyString /\ Directory o = EmptyString /\
  Extensions o = [] /\ HTMLContentType o = EmptyString.

(** The tree of set [setName] written back after a mutation. *)
Definition withTree (g : Globals) (setName : string) (t : Template)
    : Globals :=
  mkGlobals (<[setName := t]> (tplSets g)) (tplSetOpts g).

(** ** Concrete inputs used by the examples below *)

Definition emptyGlobals : Globals := mkGlobals ∅ ∅.

Definition emptySink : ResponseWriter :=
  mkResponseWriter ∅ None EmptyString [].

Definition rootEntry : entry := mkEntry [] None.

(** A template directory with a layout and a content template. *)
Definition layoutFiles : list entry :=
  [ rootEntry;
    mkEntry ["content.tmpl"] (Some "body");
    mkEntry ["layout.tmpl"] (Some "<html>{{yield}}</html>") ].

Definition layoutProcess (m : mode) (h : host) : Process :=
  mkProcess m h (fun _ => layoutFiles) 0.

(** A renderer as the handler of [Renderer] builds it from the default
    options. *)
Definition defaultOptions : RenderOptions :=
  snd (prepareOptions [] emptyGlobals).

Definition defaultRender : TplRender :=
  mkTplRender emptySink defaultOptions (prepareCharset EmptyString) None.

(** Marshalers for the examples: [sampleMarshalers] print a string value
    between quotes (and on two lines when indenting);
    [failingMarshalers] reject every value. *)
Definition sampleMarshalers : Marshalers :=
  let plain := fun v => match v with
                        | VNil => "null"
                        | VStr s => dquote +:+ s +:+ dquote
                        end in
  mkMarshalers (fun v => inl (plain v))
    (fun v => inl (plain v +:+ http.newline))
    (fun v => inl ("<v>" +:+ plain v +:+ "</v>"))
    (fun v => inl ("<v>" +:+ plain v +:+ "</v>" +:+ http.newline)).

Definition failingMarshalers : Marshalers :=
  let fail := fun _ : value => inr (Errorf "unsupported type") in
  mkMarshalers fail fail fail fail.

(** The options of a set that guards its JSON with a prefix. *)
Definition prefixOptions : RenderOptions :=
  mkRenderOptions "DEFAULT" "templates" EmptyString [".tmpl"; ".html"] []
    (mkDelims EmptyString EmptyString) EmptyString false false
    (")]}'," +:+ http.newline) EmptyString "text/html".

Definition prefixRender : TplRender :=
  mkTplRender emptySink prefixOptions (prepareCharset EmptyString) None.

(** A sink on which upstream code has already chosen a content type. *)
Definition pngSink : ResponseWriter :=
  http.HeaderSet emptySink ContentType "image/png".

Definition pngRender : TplRender :=
  mkTplRender pngSink defaultOptions (prepareCharset EmptyString) None.

(** The default set compiled in production mode from [layoutFiles], and
    its tree. *)
Definition layoutGlobals : Globals :=
  Eval vm_compute in
  match Renderer (layoutProcess PROD Unix) [] emptyGlobals with
  | Ok (g, _) => g
  | _ => emptyGlobals
  end.

Definition layoutTree : Template :=
  Eval vm_compute in
  match tplSets layoutGlobals !! "DEFAULT" with
  | Some t => t
  | None => template.New EmptyString
  end.

(** A renderer whose set is configured with the layout ["layout"]. *)
Definition layoutOptions : RenderOptions :=
  mkRenderOptions "DEFAULT" "templates" "layout" [".tmpl"; ".html"] []
    (mkDelims EmptyString EmptyString) EmptyString false false
    EmptyString EmptyString "text/html".

Definition layoutRender : TplRender :=
  mkTplRender emptySink layoutOptions (prepareCharset EmptyString) None.

(** A template directory whose templates call the built-in helpers. *)
Definition helperFiles : list entry :=
  [ rootEntry;
    mkEntry ["a.tmpl"] (Some "A");
    mkEntry ["b.tmpl"] (Some "{{yield}}|{{current}}");
    mkEntry ["layout.tmpl"] (Some "<html>{{yield}}</html>") ].

Definition helperProcess (m : mode) : Process :=
  mkProcess m Unix (fun _ => helperFiles) 0.

(** Two requests against one application: [a] is rendered inside the
    layout, then [b] is rendered with no layout at all. *)
Definition layoutThenPlain (m : mode) (fuel : nat)
    : outcome (ResponseWriter * ResponseWriter) :=
  obind (Renderer (helperProcess m) [] emptyGlobals) (fun '(g, handler) =>
  obind (HTML fuel (helperProcess m) (handler emptySink) 200 "a" VNil
           [mkHTMLOptions "layout"] g) (fun '(g1, r1) =>
  obind (HTML fuel (helperProcess m) (handler emptySink) 200 "b" VNil
           [] g1) (fun '(_, r2) =>
  Ok (RW r1, RW r2)))).

(** An application started with the default options that asks for a set
    nobody registered. *)
Definition missingSet (m : mode) (fuel : nat) : outcome ResponseWriter :=
  obind (Renderer (layoutProcess m Unix) [] emptyGlobals) (fun '(g, handler) =>
  obind (HTMLSet fuel (layoutProcess m Unix) (handler emptySink) 200
           "missing-set" "x" VNil [] g) (fun '(_, r) =>
  Ok (RW r))).

(** A template directory with a dot in the name of a subdirectory. *)
Definition dottedFiles : list entry :=
  [ rootEntry;
    mkEntry ["index.tmpl"] (Some "home");
    mkEntry ["v1.0"] None;
    mkEntry ["v1.0"; "page.tmpl"] (Some "hi") ].

Definition dottedProcess (h : host) : Process :=
  mkProcess PROD h (fun _ => dottedFiles) 0.

(** A template two directories below the root, on a host whose
    separator is the backslash. *)
Definition nestedFiles : list entry :=
  [ rootEntry;
    mkEntry ["sub"] None;
    mkEntry ["sub"; "dir"] None;
    mkEntry ["sub"; "dir"; "page.tmpl"] (Some "p") ].

Definition nestedProcess (h : host) : Process :=
  mkProcess PROD h (fun _ => nestedFiles) 0.

Definition nestedGlobals : Globals :=
  Eval vm_compute in
  match compile (nestedProcess Windows) (Some defaultOptions) emptyGlobals with
  | Ok g => g
  | _ => emptyGlobals
  end.

(** ** [Error], [Status] and [SetTemplatePath] (render.go lines 431-441,
    462-469) *)

Module Render.

(** [Error], lines 432-437: the status line, then the first message if
    there is one. *)
Definition Error (r : TplRender) (status : Z) (message : list string)
    : TplRender :=
  let w := http.WriteHeader (RW r) status in
  match message with
  | msg :: _ => withRW r (http.Write_ w msg)
  | [] => withRW r w
  end.

(** [Status], lines 439-441. *)
Definition Status (r : TplRender) (status : Z) : TplRender :=
  withRW r (http.WriteHeader (RW r) status).

(** [SetTemplatePath], lines 462-469.  [opt] is the pointer stored in
    [tplSetOpts] under [setName]: the assignment to [opt.Directory]
    changes the registered configuration, and fails on the nil pointer
    of an unregistered set. *)
Definition SetTemplatePath (p : Process) (setName dir : string)
    (g : Globals) : outcome Globals :=
  let setName := if (String.length setName =? 0)%nat
                 then _DEFAULT_TPL_SET_NAME else setName in
  match tplSetOpts g !! setName with
  | None => Panic NilDereference
  | Some opt =>
      let opt := withDirectory opt dir in
      compile p (Some opt)
        (mkGlobals (tplSets g) (<[setName := opt]> (tplSetOpts g)))
  end.

End Render.

(** ** Further specification helpers *)

(** Every configuration is registered under its own name. *)
Definition registered (g : Globals) : Prop :=
  forall key o, tplSetOpts g !! key = Some o -> Name o = key.

(** The tables of [options.Funcs] merged in order, later tables over
    earlier ones. *)
Definition mergedFuncs (funcs : list FuncMap) : FuncMap :=
  fold_left (fun acc fm => fm ∪ acc) funcs ∅.

(** Two visits of a walk that [compile] cannot tell apart: the same
    relative path, and the same file contents when the path's extension
    is configured. *)
Definition sameVisit (h : host) (options : RenderOptions) (e1 e2 : entry)
    : Prop :=
  below e1 = below e2 /\
  (matched h options e1 = true -> contents e1 = contents e2).

(** What two calls of [renderBytes] agree on when they return the same
    buffer or error and leave the same trees. *)
Definition sameRender (a b : outcome (Globals * (string + error))) : Prop :=
  match a, b with
  | Ok (ga, xa), Ok (gb, xb) => xa = xb /\ tplSets ga = tplSets gb
  | Panic pa, Panic pb => pa = pb
  | OutOfFuel, OutOfFuel => True
  | _, _ => False
  end.

(** The same, for the returned buffer or error alone. *)
Definition sameResult (a b : outcome (Globals * (string + error))) : Prop :=
  match a, b with
  | Ok (_, xa), Ok (_, xb) => xa = xb
  | Panic pa, Panic pb => pa = pb
  | OutOfFuel, OutOfFuel => True
  | _, _ => False
  end.

(** The parse of a text without action: one text node, none for the
    empty text. *)
Definition staticBody (text : string) : list action :=
  match text with
  | EmptyString => []
  | _ => [AText text]
  end.

(** What [renderHTML] writes to the sink of [r] for the buffer or error
    that [renderBytes] returned (lines 394-404). *)
Definition replied (r : TplRender) (status : Z) (x : string + error)
    : ResponseWriter :=
  match x with
  | inr err =>
      http.Error_ (RW r) (Error err) http.StatusInternalServerError
  | inl out =>
      io_Copy
        (http.WriteHeader
           (http.HeaderSet (RW r) ContentType
              (HTMLContentType (Opt r) +:+ CompiledCharset r))
           status)
        out
  end.

(** ** Further concrete inputs *)

(** A set with a helper table of its own that also tries to define
    [yield]. *)
Definition userFuncs : FuncMap :=
  <["yield" := UserString "mine"]> (<["title" := UserString "T"]> ∅).

Definition userOptions : RenderOptions :=
  mkRenderOptions "DEFAULT" "templates" EmptyString [".tmpl"; ".html"]
    [userFuncs] (mkDelims EmptyString EmptyString) EmptyString false false
    EmptyString EmptyString "text/html".

(** A directory whose only entries are the root and a subdirectory that
    carries a configured extension. *)
Definition directoryFiles : list entry :=
  [ rootEntry; mkEntry ["partials.tmpl"] None ].

Definition directoryProcess : Process :=
  mkProcess PROD Unix (fun _ => directoryFiles) 0.

(** A directory without any template, and the same directory seen with
    a readable and with an unreadable notes file. *)
Definition bareFiles : list entry := [ rootEntry ].

Definition bareProcess (m : mode) : Process :=
  mkProcess m Unix (fun _ => bareFiles) 0.

Definition notesFiles (c : option string) : list entry :=
  [ rootEntry;
    mkEntry ["index.tmpl"] (Some "home");
    mkEntry ["notes.txt"] c ].

Definition notesProcess (c : option string) : Process :=
  mkProcess PROD Unix (fun _ => notesFiles c) 0.

(** The options of a set served as XHTML in Latin-1 with an XML prefix. *)
Definition xhtmlOptions : RenderOptions :=
  mkRenderOptions "DEFAULT" "templates" EmptyString [".tmpl"; ".html"] []
    (mkDelims EmptyString EmptyString) "ISO-8859-1" false true
    EmptyString ("<?xml version='1.0'?>" +:+ http.newline)
    "application/xhtml+xml".

Definition xhtmlRender : TplRender :=
  mkTplRender emptySink xhtmlOptions (prepareCharset "ISO-8859-1") None.

(** The state of an application after [Renderer] in development mode
    over [helperFiles], and after one render with layout in production
    mode. *)
Definition helperGlobals : Globals :=
  Eval vm_compute in
  match Renderer (helperProcess PROD) [] emptyGlobals with
  | Ok (g, _) => g
  | _ => emptyGlobals
  end.

Definition helperTree : Template :=
  Eval vm_compute in
  match tplSets helperGlobals !! "DEFAULT" with
  | Some t => t
  | None => template.New EmptyString
  end.

(** The set compiled from [helperFiles] with [userOptions]. *)
Definition userGlobals : Globals :=
  Eval vm_compute in
  match compile (helperProcess PROD) (Some userOptions) emptyGlobals with
  | Ok g => g
  | _ => emptyGlobals
  end.

Definition userTree : Template :=
  Eval vm_compute in
  match tplSets userGlobals !! "DEFAULT" with
  | Some t => t
  | None => template.New EmptyString
  end.

(** The state after the templates of the default set have been moved to
    the directory [views]. *)
Definition movedGlobals : Globals :=
  Eval vm_compute in
  match Render.SetTemplatePath (layoutProcess DEV Unix) "DEFAULT" "views"
          layoutGlobals with
  | Ok g => g
  | _ => emptyGlobals
  end.

(** The state after [Renderer] with [xhtmlOptions], and the handler it
    returns. *)
Definition xhtmlGlobals : Globals :=
  Eval vm_compute in
  match Renderer (layoutProcess PROD Unix) [xhtmlOptions] emptyGlobals with
  | Ok (g, _) => g
  | _ => emptyGlobals
  end.

Definition xhtmlHandler (rw : ResponseWriter) : TplRender :=
  mkTplRender rw xhtmlOptions (prepareCharset "ISO-8859-1") None.

(** Two pages and a layout, and the state of an application started
    over them in production mode. *)
Definition pagesFiles : list entry :=
  [ rootEntry;
    mkEntry ["a.tmpl"] (Some "A");
    mkEntry ["c.tmpl"] (Some "C");
    mkEntry ["layout.tmpl"] (Some "<html>{{yield}}</html>") ].

Definition pagesProcess : Process :=
  mkProcess PROD Unix (fun _ => pagesFiles) 0.

Definition pagesGlobals : Globals :=
  Eval vm_compute in
  match Renderer pagesProcess [] emptyGlobals with
  | Ok (g, _) => g
  | _ => emptyGlobals
  end.

Definition pagesTree : Template :=
  Eval vm_compute in
  match tplSets pagesGlobals !! "DEFAULT" with
  | Some t => t
  | None => template.New EmptyString
  end.

(** The set compiled from the notes directory. *)
Definition notesGlobals : Globals :=
  Eval vm_compute in
  match compile (notesProcess (Some "x")) (Some defaultOptions) emptyGlobals
  with
  | Ok g => g
  | _ => emptyGlobals
  end.

(** * Properties *)

(** ** Strings and [getExt] *)

Lemma append_cons a s1 s2 : String a s1 +:+ s2 = String a (s1 +:+ s2).
Proof. reflexivity. Qed.

Lemma append_nil_l s : EmptyString +:+ s = s.
Proof. reflexivity. Qed.

Lemma append_nil_r s : s +:+ EmptyString = s.
Proof. induction s as [|a s IH]; [reflexivity|]. now rewrite append_cons, IH. Qed.

Lemma append_assoc s1 s2 s3 : (s1 +:+ s2) +:+ s3 = s1 +:+ (s2 +:+ s3).
Proof.
  induction s1 as [|a s1 IH]; [reflexivity|].
  now rewrite !append_cons, IH.
Qed.

Lemma Split_nonempty s c : strings.Split s c <> [].
Proof.
  destruct s as [|a s]; simpl; [discriminate|].
  destruct (Ascii.eqb a c); [discriminate|].
  destruct (strings.Split s c); discriminate.
Qed.

Lemma Join_Split s c :
  strings.Join (strings.Split s c) (String c EmptyString) = s.
Proof.
  induction s as [|a s IH]; simpl; [reflexivity|].
  destruct (Ascii.eqb_spec a c) as [->|Hne].
  - pose proof (Split_nonempty s c) as Hn.
    destruct (strings.Split s c) as [|q qs] eqn:E; [congruence|].
    change (strings.Join (EmptyString :: q :: qs) (String c EmptyString))
      with (String c (strings.Join (q :: qs) (String c EmptyString))).
    now rewrite IH.
  - pose proof (Split_nonempty s c) as Hn.
    destruct (strings.Split s c) as [|q qs] eqn:E; [congruence|].
    destruct qs as [|q' qs'].
    + simpl in *. now subst.
    + change (strings.Join (String a q :: q' :: qs') (String c EmptyString))
        with (String a (strings.Join (q :: q' :: qs') (String c EmptyString))).
      now rewrite IH.
Qed.

Lemma Index_range s c : (-1 <= strings.Index s c)%Z.
Proof.
  induction s as [|a s IH]; simpl; [lia|].
  destruct (Ascii.eqb a c); [lia|].
  destruct (Z.eqb_spec (strings.Index s c) (-1)); lia.
Qed.

Lemma Index_absent s c :
  strings.Index s c = (-1)%Z <-> strings.ContainsByte s c = false.
Proof.
  induction s as [|a s IH]; simpl; [tauto|].
  destruct (Ascii.eqb a c); simpl.
  - split; discriminate.
  - pose proof (Index_range s c).
    destruct (Z.eqb_spec (strings.Index s c) (-1)) as [E|E].
    + rewrite <- IH. tauto.
    + rewrite <- IH. split; intros; lia.
Qed.

Lemma from_first_absent s c :
  strings.ContainsByte s c = false -> from_first c s = EmptyString.
Proof.
  induction s as [|a s IH]; simpl; [reflexivity|].
  destruct (Ascii.eqb a c); simpl; [discriminate|exact IH].
Qed.

(** [getExt] returns the suffix that starts at the first dot. *)
Lemma getExt_from_first s : getExt s = from_first dot s.
Proof.
  unfold getExt.
  induction s as [|a s IH]; [reflexivity|].
  simpl strings.Index. simpl strings.Split. simpl from_first.
  destruct (Ascii.eqb_spec a dot) as [->|Hne].
  - simpl. now rewrite Join_Split.
  - pose proof (Split_nonempty s dot) as Hn.
    pose proof (Index_range s dot) as Hr.
    destruct (strings.Split s dot) as [|q qs] eqn:E; [congruence|].
    simpl tail in *.
    destruct (Z.eqb_spec (strings.Index s dot) (-1)) as [E1|E1].
    + simpl. exact IH.
    + replace (strings.Index s dot + 1 =? -1)%Z with false; [exact IH|].
      symmetry. apply Z.eqb_neq. lia.
Qed.

Lemma length_from_first c s :
  (String.length (from_first c s) <= String.length s)%nat.
Proof.
  induction s as [|a s IH]; simpl; [lia|].
  destruct (Ascii.eqb a c); simpl; lia.
Qed.

(** Slicing the extension off and putting it back gives the path. *)
Lemma strip_from_first c s :
  take_bytes (String.length s - String.length (from_first c s)) s
    +:+ from_first c s = s.
Proof.
  induction s as [|a s IH]; simpl from_first; [reflexivity|].
  destruct (Ascii.eqb a c).
  - now rewrite Nat.sub_diag.
  - pose proof (length_from_first c s).
    replace (String.length (String a s) - String.length (from_first c s))%nat
      with (S (String.length s - String.length (from_first c s)))
      by (simpl; lia).
    simpl. now rewrite append_cons, IH.
Qed.

Lemma getExt_strip s :
  take_bytes (String.length s - String.length (getExt s)) s +:+ getExt s = s.
Proof. rewrite getExt_from_first. apply strip_from_first. Qed.

(** The part before the extension holds no dot. *)
Lemma stem_no_dot c s :
  strings.ContainsByte
    (take_bytes (String.length s - String.length (from_first c s)) s) c
  = false.
Proof.
  induction s as [|a s IH]; simpl from_first; [reflexivity|].
  destruct (Ascii.eqb a c) eqn:E.
  - now rewrite Nat.sub_diag.
  - pose proof (length_from_first c s).
    replace (String.length (String a s) - String.length (from_first c s))%nat
      with (S (String.length s - String.length (from_first c s)))
      by (simpl; lia).
    simpl. now rewrite E, IH.
Qed.

(** ** [filepath.ToSlash] *)

Lemma ReplaceByte_absent s old new :
  old <> new -> strings.ContainsByte (strings.ReplaceByte s old new) old = false.
Proof.
  intros Hne. induction s as [|a s IH]; simpl; [reflexivity|].
  rewrite IH, orb_false_r.
  destruct (Ascii.eqb_spec a old) as [->|Ha].
  - apply Ascii.eqb_neq. congruence.
  - now apply Ascii.eqb_neq.
Qed.

(** After [ToSlash] the only separator a name can hold is the slash. *)
Lemma ToSlash_normal h s :
  strings.ContainsByte (filepath.ToSlash h s) (filepath.Separator h) = true ->
  filepath.Separator h = ascii_of_nat 47.
Proof.
  unfold filepath.ToSlash.
  destruct (Ascii.eqb_spec (filepath.Separator h) (ascii_of_nat 47)) as [E|E];
    [easy|].
  now rewrite ReplaceByte_absent.
Qed.

(** ** The tree built by [compile] *)

Lemma tSet_Funcs t fm : tSet (template.Funcs t fm) = tSet t.
Proof. reflexivity. Qed.

Lemma tSet_fold_Funcs fms t : tSet (fold_left template.Funcs fms t) = tSet t.
Proof.
  revert t. induction fms as [|fm fms IH]; intros t; simpl; [reflexivity|].
  now rewrite IH.
Qed.

Lemma Parse_Some t name text t' :
  template.Parse t name text = Some t' ->
  exists body,
    t' = mkTemplate (tName t) (tDelims t) (tFuncs t) (<[name := body]> (tSet t)).
Proof.
  unfold template.Parse.
  destruct (template.parseText _ _ _ _ _) as [body|]; [|discriminate].
  intros [= <-]. now exists body.
Qed.

Lemma Must_Ok name o t : Must name o = Ok t -> o = Some t.
Proof. destruct o; simpl; congruence. Qed.

Lemma helperFuncs_yield (fm : FuncMap) :
  (helperFuncs ∪ fm) !! "yield" = Some HelperYield.
Proof. apply lookup_union_Some_l. reflexivity. Qed.

Lemma helperFuncs_current (fm : FuncMap) :
  (helperFuncs ∪ fm) !! "current" = Some HelperCurrent.
Proof. apply lookup_union_Some_l. reflexivity. Qed.

(** One visit of the walk: an entry whose extension is not configured
    leaves the tree alone; one whose extension is configured adds (or
    replaces) exactly the node [nodeName], after the built-in helpers
    have been merged over every other function table. *)
Lemma forExtensions_Ok h options e r ext extensions t t' :
  forExtensions h options e r ext extensions t = Ok t' ->
  ((ext ∉ extensions) /\ t' = t) \/
  (ext ∈ extensions /\
   exists buf body,
     contents e = Some buf /\
     tSet t' = <[filepath.ToSlash h
                   (take_bytes (String.length r - String.length ext) r)
                 := body]> (tSet t) /\
     tFuncs t' !! "yield" = Some HelperYield /\
     tFuncs t' !! "current" = Some HelperCurrent).
Proof.
  induction extensions as [|x xs IH]; simpl.
  - intros [= <-]. left. split; [apply not_elem_of_nil|reflexivity].
  - destruct (String.eqb_spec ext x) as [->|Hne].
    + destruct (contents e) as [buf|]; [|discriminate].
      intros H%Must_Ok. apply Parse_Some in H as [body ->].
      right. split; [apply list_elem_of_here|].
      exists buf, body. simpl. rewrite tSet_fold_Funcs.
      split; [reflexivity|]. split; [reflexivity|].
      split; [apply helperFuncs_yield|apply helperFuncs_current].
    + intros H. destruct (IH H) as [[Hn ->]|[Hin Hr]].
      * left. split; [|reflexivity].
        intros [?|?]%elem_of_cons; congruence.
      * right. split; [now apply list_elem_of_further|exact Hr].
Qed.

Lemma walkFn_Ok h options t e t' :
  walkFn h options t e = Ok t' ->
  (matched h options e = false /\ t' = t) \/
  (matched h options e = true /\
   exists buf body,
     contents e = Some buf /\
     tSet t' = <[nodeName h e := body]> (tSet t) /\
     tFuncs t' !! "yield" = Some HelperYield /\
     tFuncs t' !! "current" = Some HelperCurrent).
Proof.
  unfold walkFn, matched, nodeName. intros H.
  apply forExtensions_Ok in H as [[Hn ->]|[Hin Hr]].
  - left. split; [now apply bool_decide_eq_false|reflexivity].
  - right. split; [now apply bool_decide_eq_true|exact Hr].
Qed.

Lemma forExtensions_unmatched h options e r ext extensions t :
  ext ∉ extensions ->
  forExtensions h options e r ext extensions t = Ok t.
Proof.
  induction extensions as [|x xs IH]; intros Hn; simpl; [reflexivity|].
  destruct (String.eqb_spec ext x) as [->|Hne].
  - exfalso. apply Hn, list_elem_of_here.
  - apply IH. intros Hin. apply Hn. now apply list_elem_of_further.
Qed.

(** What the callback does with an entry whose extension is configured:
    lines 194-209 for the first extension that matches. *)
Lemma forExtensions_matched h options e r ext extensions t :
  ext ∈ extensions ->
  forExtensions h options e r ext extensions t =
  match contents e with
  | None => Panic (PanicError (Errorf ("open " +:+ r +:+ ": read error")))
  | Some buf =>
      let node :=
        filepath.ToSlash h
          (take_bytes (String.length r - String.length ext) r) in
      Must node
        (template.Parse
           (template.Funcs (fold_left template.Funcs (Funcs options) t)
              helperFuncs)
           node buf)
  end.
Proof.
  induction extensions as [|x xs IH]; intros Hin;
    [now apply elem_of_nil in Hin|].
  simpl. destruct (String.eqb_spec ext x) as [->|Hne]; [reflexivity|].
  apply IH. apply elem_of_cons in Hin as [?|?]; [congruence|assumption].
Qed.

Lemma walkFn_matched h options t e :
  matched h options e = true ->
  walkFn h options t e =
  match contents e with
  | None =>
      Panic (PanicError (Errorf ("open " +:+ filepath.Rel h (below e)
                                 +:+ ": read error")))
  | Some buf =>
      Must (nodeName h e)
        (template.Parse
           (template.Funcs (fold_left template.Funcs (Funcs options) t)
              helperFuncs)
           (nodeName h e) buf)
  end.
Proof.
  intros Hm. apply bool_decide_eq_true in Hm.
  unfold walkFn. cbv zeta. now rewrite forExtensions_matched.
Qed.

Lemma walkFn_unmatched h options t e :
  matched h options e = false -> walkFn h options t e = Ok t.
Proof.
  intros Hm. unfold matched in Hm. apply bool_decide_eq_false in Hm.
  unfold walkFn. cbv zeta. now apply forExtensions_unmatched.
Qed.

(** The nodes after the walk: those before it and one per matched entry. *)
Lemma walkAll_nodes h options entries t t' :
  walkAll h options entries t = Ok t' ->
  forall name,
    is_Some (tSet t' !! name) <->
    is_Some (tSet t !! name) \/
    exists e, e ∈ entries /\ matched h options e = true /\ nodeName h e = name.
Proof.
  revert t. induction entries as [|e es IH]; simpl; intros t H name.
  - injection H as <-. split; [now left|].
    intros [?|(e & He & _)]; [assumption|]. now apply elem_of_nil in He.
  - destruct (walkFn h options t e) as [t1| |] eqn:E; simpl in H;
      try discriminate.
    rewrite (IH _ H name).
    apply walkFn_Ok in E as [[Hm ->]|[Hm (buf & body & _ & Hs & _)]].
    + split.
      * intros [?|(e' & He' & Hm' & Hn')]; [now left|].
        right. exists e'. split; [now apply list_elem_of_further|easy].
      * intros [?|(e' & [->|He']%elem_of_cons & Hm' & Hn')]; [now left| |].
        -- congruence.
        -- right. now exists e'.
    + rewrite Hs. split.
      * intros [Hl|(e' & He' & Hm' & Hn')].
        -- destruct (decide (nodeName h e = name)) as [Heq|Hne].
           ++ right. exists e. split; [apply list_elem_of_here|easy].
           ++ left. now rewrite lookup_insert_ne in Hl.
        -- right. exists e'. split; [now apply list_elem_of_further|easy].
      * intros [Hl|(e' & [->|He']%elem_of_cons & Hm' & Hn')].
        -- left. destruct (decide (nodeName h e = name)) as [<-|Hne].
           ++ rewrite lookup_insert_eq. eauto.
           ++ now rewrite lookup_insert_ne.
        -- left. rewrite <- Hn', lookup_insert_eq. eauto.
        -- right. now exists e'.
Qed.

(** The function table after the walk: untouched when no entry matched,
    otherwise with the inert [yield] and [current] of [helperFuncs]. *)
Lemma walkAll_funcs h options entries t t' :
  walkAll h options entries t = Ok t' ->
  (tFuncs t' = tFuncs t /\
   forall e, e ∈ entries -> matched h options e = false) \/
  (tFuncs t' !! "yield" = Some HelperYield /\
   tFuncs t' !! "current" = Some HelperCurrent).
Proof.
  revert t. induction entries as [|e es IH]; simpl; intros t H.
  - injection H as <-. left. split; [reflexivity|].
    intros e He. now apply elem_of_nil in He.
  - destruct (walkFn h options t e) as [t1| |] eqn:E; simpl in H;
      try discriminate.
    destruct (IH _ H) as [[Hf Hall]|Hr]; [|now right].
    apply walkFn_Ok in E as [[Hm ->]|[Hm (buf & body & _ & _ & Hy & Hc)]].
    + left. split; [assumption|].
      intros e' [->|He']%elem_of_cons; auto.
    + right. now rewrite Hf.
Qed.

(** [compile] with a configuration either panics or installs, under the
    configuration's name, a tree whose nodes are the placeholder and one
    node per matched entry of the walk. *)
Lemma compile_Ok p options g g' :
  compile p (Some options) g = Ok g' ->
  exists t,
    g' = mkGlobals (<[Name options := t]> (tplSets g)) (tplSetOpts g) /\
    forall name,
      is_Some (tSet t !! name) <->
      name = Directory options \/
      exists e, e ∈ Walk p (Directory options) /\
                matched (Host p) options e = true /\
                nodeName (Host p) e = name.
Proof.
  unfold compile.
  destruct (Must _ _) as [t0| |] eqn:E0; simpl; try discriminate.
  destruct (walkAll _ _ _ t0) as [t| |] eqn:E1; simpl; try discriminate.
  intros [= <-]. exists t. split; [reflexivity|].
  intros name. rewrite (walkAll_nodes _ _ _ _ _ E1 name).
  apply Must_Ok, Parse_Some in E0 as [body ->]. simpl.
  assert (is_Some ((<[Directory options := body]> (∅ : gmap string (list action)))
                     !! name) <-> name = Directory options) as ->; [|tauto].
  destruct (decide (Directory options = name)) as [<-|Hne].
  - rewrite lookup_insert_eq. split; eauto.
  - rewrite lookup_insert_ne, lookup_empty by assumption.
    split; [intros [? [=]]|congruence].
Qed.

(** ** Template execution *)

(** More fuel never changes a result. *)
Lemma execActions_mono run1 run2 funcs tmpl v :
  (forall n d r, run1 n d = Ok r -> run2 n d = Ok r) ->
  forall body buf r,
    template.execActions run1 funcs tmpl v body buf = Ok r ->
    template.execActions run2 funcs tmpl v body buf = Ok r.
Proof.
  intros Hrun. induction body as [|a body IH]; intros buf r; simpl; [easy|].
  destruct a as [s| |fn]; try apply IH.
  destruct (funcs !! fn) as [[| |tplName captured|tplName|s|s|e]|];
    try apply IH; try easy.
  destruct (run1 tplName captured) as [[out [err|]]| |] eqn:E; simpl;
    try (intros; discriminate); rewrite (Hrun _ _ _ E); simpl;
    [easy|apply IH].
Qed.

Lemma ExecuteTemplate_mono t n m name v r :
  n <= m ->
  template.ExecuteTemplate n t name v = Ok r ->
  template.ExecuteTemplate m t name v = Ok r.
Proof.
  revert m name v r. induction n as [|n IH]; intros m name v r Hle; simpl;
    [discriminate|].
  destruct m as [|m]; [lia|]. simpl.
  destruct (tSet t !! name) as [body|]; [|easy].
  apply execActions_mono. intros n' d r'. apply IH. lia.
Qed.

(** Template execution does not panic. *)
Lemma execActions_no_panic run funcs tmpl v :
  (forall n d pv, run n d <> Panic pv) ->
  forall body buf pv,
    template.execActions run funcs tmpl v body buf <> Panic pv.
Proof.
  intros Hrun. induction body as [|a body IH]; intros buf pv; simpl; [easy|].
  destruct a as [s| |fn]; try apply IH.
  destruct (funcs !! fn) as [[| |tplName captured|tplName|s|s|e]|];
    try apply IH; try easy.
  destruct (run tplName captured) as [[out [err|]]| |] eqn:E; simpl;
    try easy; try apply IH.
  now apply Hrun in E.
Qed.

Lemma ExecuteTemplate_no_panic fuel t name v pv :
  template.ExecuteTemplate fuel t name v <> Panic pv.
Proof.
  revert name v pv. induction fuel as [|n IH]; intros name v pv; simpl;
    [easy|].
  destruct (tSet t !! name) as [body|]; [|easy].
  apply execActions_no_panic. intros n' d pv'. apply IH.
Qed.

Lemma execute_ExecuteTemplate fuel t name v :
  execute fuel t name v = template.ExecuteTemplate fuel t name v.
Proof.
  unfold execute.
  destruct (template.ExecuteTemplate fuel t name v) as [[out err]| |];
    reflexivity.
Qed.

(** ** The bindings made by [addYield] *)

Lemma addYield_yield t tplName v :
  tFuncs (addYield t tplName v) !! "yield" = Some (LayoutYield tplName v).
Proof. apply lookup_union_Some_l, lookup_insert_eq. Qed.

Lemma addYield_current t tplName v :
  tFuncs (addYield t tplName v) !! "current" = Some (LayoutCurrent tplName).
Proof.
  apply lookup_union_Some_l.
  now rewrite lookup_insert_ne, lookup_insert_eq.
Qed.

Lemma addYield_others t tplName v fn :
  fn <> "yield" -> fn <> "current" ->
  tFuncs (addYield t tplName v) !! fn = tFuncs t !! fn.
Proof.
  intros H1 H2. unfold addYield, template.Funcs. simpl.
  apply lookup_union_r.
  now rewrite !lookup_insert_ne, lookup_empty by congruence.
Qed.

Lemma addYield_nodes t tplName v : tSet (addYield t tplName v) = tSet t.
Proof. reflexivity. Qed.

(** [renderBytes] once the set is resolved to a tree. *)
Lemma renderBytes_resolved fuel p r setName tplName v htmlOpt g g1 t :
  recompiled p setName g = Ok g1 ->
  tplSets g1 !! setName = Some t ->
  renderBytes fuel p r setName tplName v htmlOpt g =
    if (0 <? String.length (resolvedLayout r htmlOpt))%nat then
      res <- execute fuel (addYield t tplName v) (resolvedLayout r htmlOpt) v ;;
      Ok (withTree g1 setName (addYield t tplName v), returned res)
    else
      res <- execute fuel t tplName v ;;
      Ok (g1, returned res).
Proof.
  intros Hc Ht. unfold renderBytes, recompiled, resolvedLayout in *.
  rewrite Hc. simpl. rewrite Ht.
  destruct (0 <? _)%nat.
  - destruct (execute _ _ _ _) as [[out [err|]]| |]; reflexivity.
  - destruct (execute _ _ _ _) as [[out [err|]]| |]; reflexivity.
Qed.

(** More fuel never changes what [renderBytes] returns. *)
Lemma renderBytes_mono n m p r setName tplName v htmlOpt g x :
  n <= m ->
  renderBytes n p r setName tplName v htmlOpt g = Ok x ->
  renderBytes m p r setName tplName v htmlOpt g = Ok x.
Proof.
  intros Hle. unfold renderBytes.
  destruct (match Env p with
            | DEV => compile p (tplSetOpts g !! setName) g
            | PROD => Ok g
            end) as [g1| |]; simpl; try discriminate.
  destruct (tplSets g1 !! setName) as [t|]; [|easy].
  destruct (0 <? _)%nat; rewrite !execute_ExecuteTemplate.
  - destruct (template.ExecuteTemplate n _ _ _) as [res| |] eqn:E; simpl;
      try discriminate.
    now rewrite (ExecuteTemplate_mono _ _ _ _ _ _ Hle E).
  - destruct (template.ExecuteTemplate n _ _ _) as [res| |] eqn:E; simpl;
      try discriminate.
    now rewrite (ExecuteTemplate_mono _ _ _ _ _ _ Hle E).
Qed.

(** ** The sink *)

Lemma HeaderGet_HeaderSet w key val :
  http.HeaderGet (http.HeaderSet w key val) key = val.
Proof. unfold http.HeaderGet. simpl. now rewrite lookup_insert_eq. Qed.

(** What [http.Error] leaves on the sink. *)
Lemma http_Error_effects w msg code :
  let w' := http.Error_ w msg code in
  Calls w' = (Calls w ++
    [CallHeaderDel "Content-Length";
     CallHeaderSet "Content-Type" "text/plain; charset=utf-8";
     CallHeaderSet "X-Content-Type-Options" "nosniff";
     CallWriteHeader code;
     CallWrite (msg +:+ http.newline)])%list /\
  http.HeaderGet w' ContentType = "text/plain; charset=utf-8" /\
  Status w' = Some (default code (Status w)) /\
  Body w' = Body w +:+ msg +:+ http.newline.
Proof.
  simpl. repeat split.
  - now rewrite <- !app_assoc.
  - unfold http.HeaderGet. simpl.
    now rewrite lookup_insert_ne, lookup_insert_eq.
  - now destruct (Status w).
Qed.

(** ** The rendering contract *)

(** C7. [prepareOptions] called with no configuration record, or with
    one whose name, directory, extensions and HTML content type are
    empty, returns (it has no failing path) a configuration named
    ["DEFAULT"], with directory ["templates"], extensions
    [".tmpl"; ".html"] and HTML content type ["text/html"], registered
    under its name; and [prepareCharset] of the unset charset is
    ["; charset=UTF-8"]. *)
Theorem prepareOptions_defaults (options : list RenderOptions) (g : Globals) :
  options = [] \/ (exists o rest, options = o :: rest /\ unset o) ->
  exists g' opt,
    prepareOptions options g = (g', opt) /\
    Name opt = "DEFAULT" /\
    Directory opt = "templates" /\
    Extensions opt = [".tmpl"; ".html"] /\
    HTMLContentType opt = "text/html" /\
    tplSetOpts g' !! "DEFAULT" = Some opt /\
    tplSets g' = tplSets g /\
    prepareCharset EmptyString = "; charset=UTF-8".
Proof.
  intros H.
  assert (exists o, hd zeroRenderOptions options = o /\ unset o
                    /\ prepareOptions options g =
                       prepareOptions [o] g) as (o & _ & Hu & ->).
  { destruct H as [->|(o & rest & -> & Hu)].
    - exists zeroRenderOptions. split; [reflexivity|]. split; [|reflexivity].
      repeat split.
    - exists o. split; [reflexivity|]. split; [exact Hu|reflexivity]. }
  destruct Hu as (Hn & Hd & He & Hc).
  unfold prepareOptions. rewrite Hn. simpl. rewrite Hd. simpl.
  rewrite He. simpl. rewrite Hc. simpl.
  eexists _, _. split; [reflexivity|]. simpl.
  repeat split. apply lookup_insert_eq.
Qed.

Lemma prepareOptions_defaults_witness :
  exists g' opt,
    prepareOptions [] emptyGlobals = (g', opt) /\
    Name opt = "DEFAULT" /\
    Directory opt = "templates" /\
    Extensions opt = [".tmpl"; ".html"] /\
    HTMLContentType opt = "text/html" /\
    tplSetOpts g' !! "DEFAULT" = Some opt /\
    tplSets g' = tplSets emptyGlobals /\
    prepareCharset EmptyString = "; charset=UTF-8".
Proof.
  apply (prepareOptions_defaults [] emptyGlobals). left. reflexivity.
Defined.

(** C5. When marshaling succeeds, [JSON] marshals with indentation
    exactly when [IndentJSON] is set, and the sink receives, in this
    order and nothing else: the content type [application/json] followed
    by the charset suffix, the status line, the prefix when (and only
    when) a non-empty one is configured, and the marshaled body right
    after it. *)
Theorem JSON_success (m : Marshalers) (r : TplRender) (status : Z)
    (v : value) (result : string) :
  (IndentJSON (Opt r) = true /\ json_MarshalIndent m v = inl result) \/
  (IndentJSON (Opt r) = false /\ json_Marshal m v = inl result) ->
  let w := RW (JSON m r status v) in
  Calls w = (Calls (RW r) ++
    [CallHeaderSet "Content-Type" ("application/json" +:+ CompiledCharset r);
     CallWriteHeader status] ++
    match PrefixJSON (Opt r) with
    | EmptyString => []
    | prefix => [CallWrite prefix]
    end ++
    [CallWrite result])%list /\
  http.HeaderGet w "Content-Type" = "application/json" +:+ CompiledCharset r /\
  Status w = Some (default status (Status (RW r))) /\
  Body w = Body (RW r) +:+ PrefixJSON (Opt r) +:+ result.
Proof.
  intros H. unfold JSON.
  assert ((if IndentJSON (Opt r) then json_MarshalIndent m v
           else json_Marshal m v) = inl result) as ->.
  { destruct H as [[-> ?]|[-> ?]]; assumption. }
  destruct (PrefixJSON (Opt r)) as [|a prefix] eqn:E; simpl.
  - repeat split.
    + now rewrite <- !app_assoc.
    + unfold http.HeaderGet. simpl. now rewrite lookup_insert_eq.
    + now destruct (Status (RW r)).
  - repeat split.
    + now rewrite <- !app_assoc.
    + unfold http.HeaderGet. simpl. now rewrite lookup_insert_eq.
    + now destruct (Status (RW r)).
    + now rewrite append_assoc.
Qed.

Lemma JSON_success_witness :
  let w := RW (JSON sampleMarshalers prefixRender 200 (VStr "a")) in
  Calls w =
    [CallHeaderSet "Content-Type" "application/json; charset=UTF-8";
     CallWriteHeader 200;
     CallWrite (")]}'," +:+ http.newline);
     CallWrite (dquote +:+ "a" +:+ dquote)] /\
  http.HeaderGet w "Content-Type" = "application/json; charset=UTF-8" /\
  Status w = Some 200%Z /\
  Body w = ")]}'," +:+ http.newline +:+ dquote +:+ "a" +:+ dquote.
Proof.
  apply (JSON_success sampleMarshalers prefixRender 200 (VStr "a")
           (dquote +:+ "a" +:+ dquote)).
  right. split; reflexivity.
Defined.

(** C6, as the code has it.  When marshaling fails, [JSON] and [XML]
    hand the error's text to [http.Error] with status 500 and do nothing
    else: the sink ends with the plain-text content type that
    [http.Error] sets, the status line 500, and the error's text
    followed by a newline; the JSON or XML content type, the prefix and
    marshaled bytes are not written. *)
Theorem marshal_failure_reply (m : Marshalers) (r : TplRender) (status : Z)
    (v : value) (err : error) :
  (selectedJSON m r v = inr err ->
   let w := RW (JSON m r status v) in
   w = http.Error_ (RW r) (Error err) 500 /\
   http.HeaderGet w "Content-Type" = "text/plain; charset=utf-8" /\
   Status w = Some (default 500%Z (Status (RW r))) /\
   Body w = Body (RW r) +:+ Error err +:+ http.newline) /\
  (selectedXML m r v = inr err ->
   let w := RW (XML m r status v) in
   w = http.Error_ (RW r) (Error err) 500 /\
   http.HeaderGet w "Content-Type" = "text/plain; charset=utf-8" /\
   Status w = Some (default 500%Z (Status (RW r))) /\
   Body w = Body (RW r) +:+ Error err +:+ http.newline).
Proof.
  split; intros H.
  - unfold JSON. fold (selectedJSON m r v). rewrite H.
    split; [reflexivity|].
    apply (http_Error_effects (RW r) (Error err) 500).
  - unfold XML. fold (selectedXML m r v). rewrite H.
    split; [reflexivity|].
    apply (http_Error_effects (RW r) (Error err) 500).
Qed.

Lemma marshal_failure_reply_witness :
  (let w := RW (JSON failingMarshalers defaultRender 200 VNil) in
   http.HeaderGet w "Content-Type" = "text/plain; charset=utf-8" /\
   Status w = Some 500%Z /\
   Body w = "unsupported type" +:+ http.newline) /\
  (let w := RW (XML failingMarshalers defaultRender 200 VNil) in
   http.HeaderGet w "Content-Type" = "text/plain; charset=utf-8" /\
   Status w = Some 500%Z /\
   Body w = "unsupported type" +:+ http.newline).
Proof.
  destruct (marshal_failure_reply failingMarshalers defaultRender 200 VNil
              (Errorf "unsupported type")) as [HJ HX].
  split; [apply HJ|apply HX]; reflexivity.
Defined.

(** C6, as stated, fails: on a sink without content type, a failing
    [JSON] call leaves the content type [text/plain; charset=utf-8]
    behind, and the body is not the error's text verbatim (a newline
    follows it). *)
Lemma JSON_failure_sets_content_type :
  let r := defaultRender in
  let w := RW (JSON failingMarshalers r 200 VNil) in
  selectedJSON failingMarshalers r VNil = inr (Errorf "unsupported type") /\
  Header (RW r) !! "Content-Type" = None /\
  Header w !! "Content-Type" = Some ["text/plain; charset=utf-8"] /\
  Header w !! "Content-Type" <> Header (RW r) !! "Content-Type" /\
  Body w <> Error (Errorf "unsupported type").
Proof. vm_compute. repeat split; discriminate. Qed.

(** C8. [RawData] and [RenderData] append the payload to the body
    verbatim; when the sink has no content type yet they set
    [application/octet-stream], respectively [text/html], and when it
    has one they leave the header map as it is. *)
Theorem data_content_type_if_absent (r : TplRender) (status : Z) (v : string) :
  let raw := RW (RawData r status v) in
  let html := RW (RenderData r status v) in
  (Body raw = Body (RW r) +:+ v /\ Body html = Body (RW r) +:+ v) /\
  (http.HeaderGet (RW r) "Content-Type" = EmptyString ->
   Header raw = <["Content-Type" := ["application/octet-stream"]]> (Header (RW r)) /\
   Header html = <["Content-Type" := ["text/html"]]> (Header (RW r)) /\
   Calls raw = (Calls (RW r) ++
     [CallHeaderSet "Content-Type" "application/octet-stream";
      CallWriteHeader status; CallWrite v])%list /\
   Calls html = (Calls (RW r) ++
     [CallHeaderSet "Content-Type" "text/html";
      CallWriteHeader status; CallWrite v])%list) /\
  (http.HeaderGet (RW r) "Content-Type" <> EmptyString ->
   Header raw = Header (RW r) /\
   Header html = Header (RW r) /\
   Calls raw = (Calls (RW r) ++ [CallWriteHeader status; CallWrite v])%list /\
   Calls html = (Calls (RW r) ++ [CallWriteHeader status; CallWrite v])%list).
Proof.
  unfold RawData, RenderData, data, ContentType, ContentBinary, ContentHTML.
  destruct (String.eqb_spec (http.HeaderGet (RW r) "Content-Type") EmptyString)
    as [E|E]; simpl.
  - split; [now split|]. split; [|contradiction].
    intros _. now rewrite <- !app_assoc.
  - split; [now split|]. split; [contradiction|].
    intros _. now rewrite <- !app_assoc.
Qed.

Lemma data_content_type_if_absent_witness :
  (Header (RW (RawData defaultRender 200 "abc")) !! "Content-Type"
     = Some ["application/octet-stream"] /\
   Header (RW (RenderData defaultRender 200 "abc")) !! "Content-Type"
     = Some ["text/html"] /\
   Body (RW (RawData defaultRender 200 "abc")) = "abc") /\
  (Header (RW (RawData pngRender 200 "abc")) = Header pngSink /\
   Header (RW (RenderData pngRender 200 "abc")) = Header pngSink /\
   http.HeaderGet (RW (RawData pngRender 200 "abc")) "Content-Type"
     = "image/png" /\
   Body (RW (RenderData pngRender 200 "abc")) = "abc").
Proof.
  destruct (data_content_type_if_absent defaultRender 200 "abc")
    as [[Hb _] [Habsent _]].
  destruct (data_content_type_if_absent pngRender 200 "abc")
    as [[_ Hb'] [_ Hpresent]].
  destruct (Habsent eq_refl) as (Hraw & Hhtml & _).
  destruct Hpresent as (Hraw' & Hhtml' & _); [discriminate|].
  split.
  - rewrite Hraw, Hhtml, Hb. repeat split; reflexivity.
  - rewrite Hb'. unfold http.HeaderGet. rewrite Hraw'.
    repeat split; solve [exact Hhtml'|reflexivity].
Defined.

(** ** Layouts *)

(** A layout made of text around one [{{yield}}]: the output of the
    template that [yield] was bound to is inserted as it is. *)
Lemma ExecuteTemplate_around_yield fuel t name v tplName captured
      before after out :
  tSet t !! name = Some [AText before; ACall "yield"; AText after] ->
  tFuncs t !! "yield" = Some (LayoutYield tplName captured) ->
  template.ExecuteTemplate fuel t tplName captured = Ok (out, None) ->
  template.ExecuteTemplate (S fuel) t name v
  = Ok (before +:+ out +:+ after, None).
Proof.
  intros Hbody Hy Hrun. simpl. rewrite Hbody. simpl. rewrite Hy, Hrun. simpl.
  now rewrite append_assoc.
Qed.

(** A failing content template makes the layout's [yield] fail. *)
Lemma ExecuteTemplate_yield_error fuel t name v tplName captured
      before rest out err :
  tSet t !! name = Some (AText before :: ACall "yield" :: rest) ->
  tFuncs t !! "yield" = Some (LayoutYield tplName captured) ->
  template.ExecuteTemplate fuel t tplName captured = Ok (out, Some err) ->
  template.ExecuteTemplate (S fuel) t name v
  = Ok (before, Some (template.callError name "yield" err)).
Proof.
  intros Hbody Hy Hrun. simpl. rewrite Hbody. simpl. now rewrite Hy, Hrun.
Qed.

Lemma ExecuteTemplate_current fuel t name v tplName :
  tSet t !! name = Some [ACall "current"] ->
  tFuncs t !! "current" = Some (LayoutCurrent tplName) ->
  template.ExecuteTemplate (S fuel) t name v = Ok (htmlEscaper tplName, None).
Proof. intros Hbody Hc. simpl. rewrite Hbody. simpl. now rewrite Hc. Qed.

(** The text of the layout of the example parses to text around one
    call of [yield], whatever [yield] is bound to. *)
Lemma parseText_html_yield (funcs : FuncMap) d f :
  d = mkDelims EmptyString EmptyString ->
  funcs !! "yield" = Some f ->
  template.parseText (S (String.length "<html>{{yield}}</html>"))
    (template.leftDelim d) (template.rightDelim d) funcs
    "<html>{{yield}}</html>"
  = Some [AText "<html>"; ACall "yield"; AText "</html>"].
Proof.
  intros -> Hf.
  cbv -[lookup gmap_lookup].
  match goal with
  | |- context [match ?x with Some _ => Some (ACall _) | None => None end] =>
      change x with (funcs !! "yield")
  end.
  now rewrite Hf.
Qed.

Lemma Parse_html_yield t name :
  tDelims t = mkDelims EmptyString EmptyString ->
  is_Some (tFuncs t !! "yield") ->
  exists t',
    template.Parse t name "<html>{{yield}}</html>" = Some t' /\
    tSet t' !! name = Some [AText "<html>"; ACall "yield"; AText "</html>"].
Proof.
  intros Hd [f Hf]. unfold template.Parse.
  rewrite (parseText_html_yield (tFuncs t) (tDelims t) f Hd Hf).
  eexists. split; [reflexivity|]. simpl. apply lookup_insert_eq.
Qed.

(** C1. An HTML render call whose resolved layout is not empty rebinds
    the tree's [yield] to a closure over the requested template and the
    call's data and [current] to the requested template's name, leaves
    the nodes alone, and executes the layout in place of the requested
    template.  Executed inside the layout, [current] prints the
    requested template's name, and [yield] inserts the output of the
    requested template, run on the call's data, as it is: with the
    layout [<html>{{yield}}</html>] the page is the content template's
    output between [<html>] and [</html>], so a content template that
    produces [body] gives [<html>body</html>].  The results hold with
    any amount of fuel above the one the content template needs. *)
Theorem layout_render (fuel : nat) (p : Process) (r : TplRender)
    (setName tplName : string) (v : value) (htmlOpt : list HTMLOptions)
    (g g1 : Globals) (t : Template) :
  recompiled p setName g = Ok g1 ->
  tplSets g1 !! setName = Some t ->
  resolvedLayout r htmlOpt <> EmptyString ->
  let layout := resolvedLayout r htmlOpt in
  let t' := addYield t tplName v in
  let g' := withTree g1 setName t' in
  (tFuncs t' !! "yield" = Some (LayoutYield tplName v) /\
   tFuncs t' !! "current" = Some (LayoutCurrent tplName) /\
   tSet t' = tSet t) /\
  renderBytes fuel p r setName tplName v htmlOpt g =
    (res <- execute fuel t' layout v ;; Ok (g', returned res)) /\
  (forall n,
     tSet t !! layout = Some [ACall "current"] ->
     S fuel <= n ->
     renderBytes n p r setName tplName v htmlOpt g
     = Ok (g', inl (htmlEscaper tplName))) /\
  (forall out n,
     tSet t !! layout = Some [AText "<html>"; ACall "yield"; AText "</html>"] ->
     execute fuel t' tplName v = Ok (out, None) ->
     S fuel <= n ->
     renderBytes n p r setName tplName v htmlOpt g
     = Ok (g', inl ("<html>" +:+ out +:+ "</html>"))) /\
  (forall n,
     tSet t !! layout = Some [AText "<html>"; ACall "yield"; AText "</html>"] ->
     execute fuel t' tplName v = Ok ("body", None) ->
     S fuel <= n ->
     renderBytes n p r setName tplName v htmlOpt g
     = Ok (g', inl "<html>body</html>")).
Proof.
  intros Hc Ht Hl layout t' g'.
  assert (forall n,
            renderBytes n p r setName tplName v htmlOpt g =
            (res <- execute n t' layout v ;; Ok (g', returned res))) as Hrender.
  { intros n. rewrite (renderBytes_resolved n p r _ _ _ _ _ _ _ Hc Ht).
    subst layout. destruct (resolvedLayout r htmlOpt); [congruence|reflexivity]. }
  assert (forall out n,
     tSet t !! layout = Some [AText "<html>"; ACall "yield"; AText "</html>"] ->
     execute fuel t' tplName v = Ok (out, None) ->
     S fuel <= n ->
     renderBytes n p r setName tplName v htmlOpt g
     = Ok (g', inl ("<html>" +:+ out +:+ "</html>"))) as Hyield.
  { intros out n Hbody Hrun Hle.
    apply (renderBytes_mono (S fuel) n); [exact Hle|].
    rewrite Hrender, execute_ExecuteTemplate.
    rewrite execute_ExecuteTemplate in Hrun.
    rewrite (ExecuteTemplate_around_yield fuel t' layout v tplName v
               "<html>" "</html>" out Hbody (addYield_yield t tplName v) Hrun).
    reflexivity. }
  split; [|split; [|split; [|split]]].
  - split; [apply addYield_yield|].
    split; [apply addYield_current|reflexivity].
  - apply Hrender.
  - intros n Hbody Hle.
    apply (renderBytes_mono (S fuel) n); [exact Hle|].
    rewrite Hrender, execute_ExecuteTemplate.
    rewrite (ExecuteTemplate_current fuel t' layout v tplName Hbody
               (addYield_current t tplName v)).
    reflexivity.
  - exact Hyield.
  - intros n Hbody Hrun Hle. apply (Hyield "body" n Hbody Hrun Hle).
Qed.

Lemma layout_render_witness :
  renderBytes 2 (layoutProcess PROD Unix) defaultRender "DEFAULT" "content"
    VNil [mkHTMLOptions "layout"] layoutGlobals
  = Ok (withTree layoutGlobals "DEFAULT" (addYield layoutTree "content" VNil),
        inl "<html>body</html>") /\
  renderBytes 2 (layoutProcess DEV Unix) layoutRender "DEFAULT" "content"
    VNil [] layoutGlobals
  = Ok (withTree layoutGlobals "DEFAULT" (addYield layoutTree "content" VNil),
        inl "<html>body</html>").
Proof.
  split.
  - destruct (layout_render 1 (layoutProcess PROD Unix) defaultRender
                "DEFAULT" "content" VNil [mkHTMLOptions "layout"]
                layoutGlobals layoutGlobals layoutTree)
      as (_ & _ & _ & _ & Hbody);
      [reflexivity|vm_compute; reflexivity|discriminate|].
    apply Hbody; [vm_compute; reflexivity|vm_compute; reflexivity|lia].
  - destruct (layout_render 1 (layoutProcess DEV Unix) layoutRender
                "DEFAULT" "content" VNil []
                layoutGlobals layoutGlobals layoutTree)
      as (_ & _ & _ & _ & Hbody);
      [vm_compute; reflexivity|vm_compute; reflexivity|discriminate|].
    apply Hbody; [vm_compute; reflexivity|vm_compute; reflexivity|lia].
Defined.

(** The same call through [HTML]: the sink receives the content type,
    the status and the composed page. *)
Lemma HTML_layout_example :
  match HTML 2 (layoutProcess PROD Unix) defaultRender 200 "content" VNil
          [mkHTMLOptions "layout"] layoutGlobals with
  | Ok (_, r') =>
      Calls (RW r') =
        [CallHeaderSet "Content-Type" "text/html; charset=UTF-8";
         CallWriteHeader 200;
         CallWrite "<html>body</html>"] /\
      Body (RW r') = "<html>body</html>"
  | _ => False
  end.
Proof. vm_compute. split; reflexivity. Qed.

(** The output of the content template is escaped once, by the content
    template; the layout does not escape it again. *)
Lemma yield_not_escaped_again :
  let t := mkTemplate "templates" (mkDelims EmptyString EmptyString)
             helperFuncs
             (<["content" := [ADot]]>
                (<["layout" := [AText "<p>"; ACall "yield"; AText "</p>"]]> ∅)) in
  let g := mkGlobals (<["DEFAULT" := t]> ∅) ∅ in
  match renderBytes 2 (layoutProcess PROD Unix) defaultRender "DEFAULT"
          "content" (VStr "a<b") [mkHTMLOptions "layout"] g with
  | Ok (_, res) => res = inl "<p>a&lt;b</p>"
  | _ => False
  end.
Proof. vm_compute. reflexivity. Qed.

(** C10. A per-call override is used as it is, also when its layout is
    empty: the call then has no layout, whatever layout the set is
    configured with, the tree's helpers are not rebound and the
    requested template is executed directly.  The configured layout is
    used only when the call carries no override. *)
Theorem override_layout_as_is (fuel : nat) (p : Process) (r : TplRender)
    (setName tplName : string) (v : value) (o : HTMLOptions)
    (rest : list HTMLOptions) (g g1 : Globals) (t : Template) :
  recompiled p setName g = Ok g1 ->
  tplSets g1 !! setName = Some t ->
  prepareHTMLOptions r (o :: rest) = o /\
  prepareHTMLOptions r [] = mkHTMLOptions (Layout (Opt r)) /\
  (HTMLOptions_Layout o = EmptyString ->
   resolvedLayout r (o :: rest) = EmptyString /\
   renderBytes fuel p r setName tplName v (o :: rest) g =
     (res <- execute fuel t tplName v ;; Ok (g1, returned res))) /\
  renderBytes fuel p r setName tplName v [] g =
    renderBytes fuel p r setName tplName v [mkHTMLOptions (Layout (Opt r))] g.
Proof.
  intros Hc Ht. split; [reflexivity|]. split; [reflexivity|]. split.
  - intros Ho. split; [exact Ho|].
    rewrite (renderBytes_resolved fuel p r _ _ _ _ _ _ _ Hc Ht).
    unfold resolvedLayout. simpl. now rewrite Ho.
  - reflexivity.
Qed.

Lemma override_layout_as_is_witness :
  Layout (Opt layoutRender) = "layout" /\
  renderBytes 1 (layoutProcess PROD Unix) layoutRender "DEFAULT" "content"
    VNil [mkHTMLOptions EmptyString] layoutGlobals
  = Ok (layoutGlobals, inl "body").
Proof.
  split; [reflexivity|].
  destruct (override_layout_as_is 1 (layoutProcess PROD Unix) layoutRender
              "DEFAULT" "content" VNil (mkHTMLOptions EmptyString) []
              layoutGlobals layoutGlobals layoutTree)
    as (_ & _ & Hdirect & _);
    [reflexivity|vm_compute; reflexivity|].
  destruct (Hdirect eq_refl) as [_ ->]. vm_compute. reflexivity.
Defined.

(** ** Missing sets *)

(** In production mode a set without tree is reported: the call returns
    normally and the sink receives status 500 and the error's text. *)
Lemma renderHTML_missing_set_prod fuel p r status setName tplName v htmlOpt g :
  Env p = PROD ->
  tplSets g !! setName = None ->
  exists r',
    renderHTML fuel p r status setName tplName v htmlOpt g = Ok (g, r') /\
    Status (RW r') = Some (default 500%Z (Status (RW r))) /\
    Body (RW r') = Body (RW r) +:+ "html/template: template " +:+ dquote
                     +:+ tplName +:+ dquote +:+ " is undefined" +:+ http.newline.
Proof.
  intros He Hn. unfold renderHTML, renderBytes. rewrite He. simpl.
  rewrite Hn. simpl. eexists. split; [reflexivity|]. simpl.
  split; [now destruct (Status (RW r))|].
  now rewrite !append_assoc.
Qed.

(** In development mode the configuration of the set is read from
    [tplSetOpts] and handed to [compile] before the tree is looked up;
    for a set that was never registered it is the nil pointer. *)
Lemma renderHTML_missing_set_dev fuel p r status setName tplName v htmlOpt g :
  Env p = DEV ->
  tplSetOpts g !! setName = None ->
  renderHTML fuel p r status setName tplName v htmlOpt g
  = Panic NilDereference.
Proof.
  intros He Hn. unfold renderHTML, renderBytes. now rewrite He, Hn.
Qed.

(** C2 fails in development mode.  An application started with the
    default options calls [HTMLSet(200, "missing-set", "x", nil)]: in
    development mode the call panics on the nil configuration; in
    production mode the same call returns and writes status 500 with
    the "undefined" error. *)
Theorem HTMLSet_missing_set_panics_in_development (fuel : nat) :
  missingSet DEV fuel = Panic NilDereference /\
  match missingSet PROD fuel with
  | Ok w =>
      Status w = Some 500%Z /\
      Body w = "html/template: template " +:+ dquote +:+ "x" +:+ dquote
               +:+ " is undefined" +:+ http.newline
  | _ => False
  end.
Proof. split; [reflexivity|]. vm_compute. split; reflexivity. Qed.

(** ** Stale helpers *)

(** With the helpers of [helperFuncs] in the tree, a render without
    layout executes the requested template directly; [yield] fails with
    the "no layout defined" error and [current] prints nothing. *)
Lemma no_layout_inert fuel p r setName tplName v htmlOpt g g1 t :
  recompiled p setName g = Ok g1 ->
  tplSets g1 !! setName = Some t ->
  resolvedLayout r htmlOpt = EmptyString ->
  tFuncs t !! "yield" = Some HelperYield ->
  tFuncs t !! "current" = Some HelperCurrent ->
  renderBytes (S fuel) p r setName tplName v htmlOpt g =
    (res <- execute (S fuel) t tplName v ;; Ok (g1, returned res)) /\
  (forall rest,
     tSet t !! tplName = Some (ACall "yield" :: rest) ->
     exists err,
       renderBytes (S fuel) p r setName tplName v htmlOpt g = Ok (g1, inr err) /\
       root_cause err = Errorf "yield called with no layout defined") /\
  (tSet t !! tplName = Some [ACall "current"] ->
   renderBytes (S fuel) p r setName tplName v htmlOpt g
   = Ok (g1, inl EmptyString)).
Proof.
  intros Hc Ht Hl Hy Hcur.
  assert (renderBytes (S fuel) p r setName tplName v htmlOpt g =
          (res <- execute (S fuel) t tplName v ;; Ok (g1, returned res)))
    as Hrender.
  { rewrite (renderBytes_resolved _ p r _ _ _ _ _ _ _ Hc Ht). now rewrite Hl. }
  split; [exact Hrender|]. split.
  - intros rest Hbody. rewrite Hrender, execute_ExecuteTemplate. simpl.
    rewrite Hbody. simpl. rewrite Hy. simpl. eexists. split; reflexivity.
  - intros Hbody. rewrite Hrender, execute_ExecuteTemplate. simpl.
    rewrite Hbody. simpl. now rewrite Hcur.
Qed.

(** A tree fresh from [compile] has the helpers of [helperFuncs], or no
    function at all when no file matched (and then no node but the
    placeholder). *)
Lemma compile_helpers_inert p options g g' :
  compile p (Some options) g = Ok g' ->
  exists t,
    tplSets g' !! Name options = Some t /\
    (tFuncs t = ∅ \/
     (tFuncs t !! "yield" = Some HelperYield /\
      tFuncs t !! "current" = Some HelperCurrent)).
Proof.
  unfold compile.
  destruct (Must _ _) as [t0| |] eqn:E0; simpl; try discriminate.
  destruct (walkAll _ _ _ t0) as [t| |] eqn:E1; simpl; try discriminate.
  intros [= <-]. exists t. simpl. split; [apply lookup_insert_eq|].
  apply Must_Ok, Parse_Some in E0 as [body ->].
  apply walkAll_funcs in E1 as [[Hf _]|Hr]; [left|now right].
  now rewrite Hf.
Qed.

(** C9 fails after a render with layout.  In production mode the
    content template [a] is rendered inside the layout, then [b], whose
    text is [{{yield}}|{{current}}], is rendered by a call whose layout
    resolves to the empty string.  In the second call [yield] does not
    fail and [current] is not empty: the bindings of the first call are
    still in the tree.  In development mode, where the tree is
    recompiled, the second call fails with the "no layout defined"
    error. *)
Theorem stale_helpers_after_layout_render :
  resolvedLayout defaultRender [] = EmptyString /\
  match layoutThenPlain PROD 2 with
  | Ok (w1, w2) =>
      Body w1 = "<html>A</html>" /\
      Status w2 = Some 200%Z /\ Body w2 = "A|a"
  | _ => False
  end /\
  match layoutThenPlain DEV 2 with
  | Ok (w1, w2) =>
      Body w1 = "<html>A</html>" /\
      Status w2 = Some 500%Z /\
      Body w2 = "template: b: executing " +:+ dquote +:+ "b" +:+ dquote
                +:+ " at <yield>: error calling yield: "
                +:+ "yield called with no layout defined" +:+ http.newline
  | _ => False
  end.
Proof. vm_compute. repeat split. Qed.

(** ** Extensions and node names *)

Lemma from_first_app_absent c s1 s2 :
  strings.ContainsByte s1 c = false ->
  from_first c (s1 +:+ s2) = from_first c s2.
Proof.
  induction s1 as [|a s1 IH]; simpl; [reflexivity|].
  destruct (Ascii.eqb a c); simpl; [discriminate|exact IH].
Qed.

Lemma take_bytes_app s1 s2 :
  take_bytes (String.length (s1 +:+ s2) - String.length s2) (s1 +:+ s2) = s1.
Proof.
  induction s1 as [|a s1 IH].
  - rewrite append_nil_l, Nat.sub_diag. now destruct s2.
  - rewrite append_cons.
    assert (String.length s2 <= String.length (s1 +:+ s2))%nat as Hle.
    { clear. induction s1 as [|b s1 IH];
        [rewrite append_nil_l; lia|rewrite append_cons; simpl; lia]. }
    replace (String.length (String a (s1 +:+ s2)) - String.length s2)%nat
      with (S (String.length (s1 +:+ s2) - String.length s2))
      by (simpl; lia).
    simpl. now rewrite IH.
Qed.

(** An entry is matched exactly when the suffix of its relative path
    that starts at the path's first dot is a configured extension. *)
Lemma matched_iff h options e :
  matched h options e = true <->
  from_first dot (filepath.Rel h (below e)) ∈ Extensions options.
Proof.
  unfold matched. rewrite bool_decide_eq_true. now rewrite getExt_from_first.
Qed.

(** For a file directly below the root the relative path is the file's
    name. *)
Lemma matched_top_level h options name c :
  matched h options (mkEntry [name] c) = true <->
  from_first dot name ∈ Extensions options.
Proof. apply matched_iff. Qed.

(** Below directories without a dot in their names, the first dot of the
    relative path is the first dot of the file's name. *)
Lemma from_first_Rel h dirs name :
  Forall (fun d => strings.ContainsByte d dot = false) dirs ->
  from_first dot (filepath.Rel h (dirs ++ [name])%list) = from_first dot name.
Proof.
  intros Hd. unfold filepath.Rel.
  destruct (dirs ++ [name])%list as [|x xs] eqn:E;
    [now destruct dirs|]. rewrite <- E. clear x xs E.
  induction Hd as [|d dirs Hdot Hd IH]; [reflexivity|].
  change ((d :: dirs) ++ [name])%list with (d :: (dirs ++ [name]))%list.
  destruct (dirs ++ [name])%list as [|x xs] eqn:E; [now destruct dirs|].
  change (strings.Join (d :: x :: xs) (String (filepath.Separator h) EmptyString))
    with (d +:+ String (filepath.Separator h) EmptyString
            +:+ strings.Join (x :: xs) (String (filepath.Separator h) EmptyString)).
  rewrite from_first_app_absent by assumption.
  rewrite append_cons. simpl from_first.
  replace (Ascii.eqb (filepath.Separator h) dot) with false
    by now destruct h.
  exact IH.
Qed.

(** The extension filter on the files of the example: [notes.txt] is not
    matched, [notes.html] and [notes.tmpl] are. *)
Lemma extension_filter_example h :
  matched h defaultOptions (mkEntry ["notes.txt"] (Some "x")) = false /\
  matched h defaultOptions (mkEntry ["notes.html"] (Some "h")) = true /\
  matched h defaultOptions (mkEntry ["notes.tmpl"] (Some "t")) = true /\
  matched h defaultOptions (mkEntry ["notes.TMPL"] (Some "t")) = false.
Proof. destruct h; vm_compute; repeat split. Qed.

(** C3 fails below a directory with a dot.  The file [v1.0/page.tmpl]
    has the name [page.tmpl], whose suffix from the first dot is the
    configured extension [.tmpl]; [getExt] is given the relative path
    and returns [.0/page.tmpl], so the file is not matched and [compile]
    creates no node for it. *)
Theorem dotted_directory_file_ignored :
  let e := mkEntry ["v1.0"; "page.tmpl"] (Some "hi") in
  e ∈ Walk (dottedProcess Unix) "templates" /\
  from_first dot "page.tmpl" = ".tmpl" /\
  ".tmpl" ∈ Extensions defaultOptions /\
  getExt (filepath.Rel Unix (below e)) = ".0/page.tmpl" /\
  matched Unix defaultOptions e = false /\
  match compile (dottedProcess Unix) (Some defaultOptions) emptyGlobals with
  | Ok g' =>
      (fun t => map_to_list (tSet t)) <$> tplSets g' !! "DEFAULT"
      = Some [("index", [AText "home"]); ("templates", [AText "Macaron"])]
  | _ => False
  end.
Proof.
  split; [|split; [|split; [|split; [|split]]]]; try (vm_compute; reflexivity).
  - do 3 apply list_elem_of_further. apply list_elem_of_here.
  - apply list_elem_of_here.
Qed.

(** C4. The node the walk callback of [compile] creates for a file is
    named by the file's path relative to the root, with the matched
    extension (all of the relative path from its first dot on) taken off
    the end and the host's separators turned into slashes: the callback
    parses a matched file under that name, and does nothing for the
    other entries.  On either host the file [sub/dir/page.tmpl] is
    parsed under the name [sub/dir/page].  These are not all the nodes
    of a compiled tree: before the walk [compile] parses the placeholder
    under the name of the directory. *)
Theorem compile_node_names (p : Process) (options : RenderOptions)
    (t : Template) (e : entry) :
  let h := Host p in
  let r := filepath.Rel h (below e) in
  let ext := getExt r in
  let stem := take_bytes (String.length r - String.length ext) r in
  let node := filepath.ToSlash h stem in
  let tmpl :=
    template.Funcs (fold_left template.Funcs (Funcs options) t) helperFuncs in
  (r = stem +:+ ext /\
   node = nodeName h e /\
   (strings.ContainsByte node (filepath.Separator h) = true ->
    filepath.Separator h = ascii_of_nat 47)) /\
  (ext ∈ Extensions options ->
   walkFn h options t e =
   match contents e with
   | None => Panic (PanicError (Errorf ("open " +:+ r +:+ ": read error")))
   | Some buf => Must node (template.Parse tmpl node buf)
   end) /\
  (ext ∉ Extensions options -> walkFn h options t e = Ok t) /\
  (forall buf,
     below e = ["sub"; "dir"; "page.tmpl"] ->
     ".tmpl" ∈ Extensions options ->
     contents e = Some buf ->
     walkFn h options t e
     = Must "sub/dir/page" (template.Parse tmpl "sub/dir/page" buf)) /\
  (forall g,
     compile p (Some options) g =
     (t0 <- Must (Directory options)
              (template.Parse
                 (template.SetDelims (template.New (Directory options))
                    (Left (Delims_ options)) (Right (Delims_ options)))
                 (Directory options) "Macaron") ;;
      t1 <- walkAll h options (Walk p (Directory options)) t0 ;;
      Ok (withTree g (Name options) t1))).
Proof.
  intros h r ext stem node tmpl.
  assert (ext ∈ Extensions options ->
          walkFn h options t e =
          match contents e with
          | None =>
              Panic (PanicError (Errorf ("open " +:+ r +:+ ": read error")))
          | Some buf => Must node (template.Parse tmpl node buf)
          end) as Hmatched.
  { intros Hin. apply walkFn_matched. now apply bool_decide_eq_true. }
  split; [|split; [|split; [|split]]].
  - split; [symmetry; apply getExt_strip|].
    split; [reflexivity|apply ToSlash_normal].
  - exact Hmatched.
  - intros Hn. apply walkFn_unmatched. now apply bool_decide_eq_false.
  - intros buf Hb Hext Hc.
    assert (ext = ".tmpl" /\ node = "sub/dir/page") as [Hx Hnode].
    { subst node stem ext r. rewrite Hb. now destruct h. }
    rewrite Hmatched by now rewrite Hx.
    now rewrite Hc, Hnode.
  - intros g. reflexivity.
Qed.

Lemma compile_node_names_witness :
  let e := mkEntry ["sub"; "dir"; "page.tmpl"] (Some "p") in
  let t0 := template.New "templates" in
  filepath.Rel Windows (below e) = "sub\dir\page.tmpl" /\
  nodeName Windows e = "sub/dir/page" /\
  walkFn Windows defaultOptions t0 e
  = Must "sub/dir/page"
      (template.Parse
         (template.Funcs (fold_left template.Funcs (Funcs defaultOptions) t0)
            helperFuncs)
         "sub/dir/page" "p").
Proof.
  split; [reflexivity|]. split; [reflexivity|].
  destruct (compile_node_names (nestedProcess Windows) defaultOptions
                (template.New "templates")
                (mkEntry ["sub"; "dir"; "page.tmpl"] (Some "p")))
      as (_ & _ & _ & Hpage & _).
  apply (Hpage "p"); [reflexivity| |reflexivity].
  apply list_elem_of_here.
Defined.

(** The claim as the specification states it, for every node of a
    compiled tree, fails on the placeholder.  Compiling the directory
    [templates] with the files [content.tmpl] and [layout.tmpl] gives
    three nodes; the node [templates] holds the placeholder text and is
    not the name of any walked entry. *)
Lemma placeholder_not_named_after_file :
  match compile (layoutProcess PROD Unix) (Some defaultOptions) emptyGlobals
  with
  | Ok g' =>
      (fun t => map_to_list (tSet t)) <$> tplSets g' !! "DEFAULT"
      = Some [("content", [AText "body"]);
              ("layout", [AText "<html>"; ACall "yield"; AText "</html>"]);
              ("templates", [AText "Macaron"])]
  | _ => False
  end /\
  Forall (fun e => nodeName Unix e <> "templates")
    (Walk (layoutProcess PROD Unix) (Directory defaultOptions)).
Proof.
  split; [vm_compute; reflexivity|].
  repeat constructor; vm_compute; discriminate.
Qed.

(** * Further properties *)

(** ** [getExt] *)

Lemma from_first_empty_iff c s :
  from_first c s = EmptyString <-> strings.ContainsByte s c = false.
Proof.
  induction s as [|a s IH]; simpl; [tauto|].
  destruct (Ascii.eqb a c); simpl; [|exact IH].
  split; discriminate.
Qed.

Lemma from_first_head c s :
  from_first c s = EmptyString \/ exists rest, from_first c s = String c rest.
Proof.
  induction s as [|a s IH]; simpl; [now left|].
  destruct (Ascii.eqb_spec a c) as [->|Hne]; [right; now exists s|exact IH].
Qed.

(** X1. [getExt] cuts its argument at the first dot: the argument is a
    dot-free stem followed by the returned extension, the stem is what
    the slice [s[0 : len(s)-len(ext)]] of [compile] takes (the slice is
    always in bounds), the extension is empty exactly when the argument
    has no dot, and otherwise starts with the dot. *)
Theorem getExt_splits_at_first_dot (s : string) :
  exists stem,
    s = stem +:+ getExt s /\
    strings.ContainsByte stem dot = false /\
    (String.length (getExt s) <= String.length s)%nat /\
    take_bytes (String.length s - String.length (getExt s)) s = stem /\
    (getExt s = EmptyString <-> strings.ContainsByte s dot = false) /\
    (getExt s = EmptyString \/ exists rest, getExt s = String dot rest).
Proof.
  exists (take_bytes (String.length s - String.length (getExt s)) s).
  split; [now rewrite getExt_strip|].
  rewrite getExt_from_first.
  split; [apply stem_no_dot|].
  split; [apply length_from_first|].
  split; [reflexivity|].
  split; [apply from_first_empty_iff|apply from_first_head].
Qed.

(** ** [prepareOptions] *)

Lemma prepareOptions_first o rest g :
  prepareOptions (o :: rest) g = prepareOptions [o] g.
Proof. reflexivity. Qed.

Lemma prepareOptions_registers (options : list RenderOptions) (g : Globals) :
  let g' := fst (prepareOptions options g) in
  let opt := snd (prepareOptions options g) in
  (Name opt <> EmptyString /\ Directory opt <> EmptyString /\
   Extensions opt <> [] /\ HTMLContentType opt <> EmptyString) /\
  tplSetOpts g' = <[Name opt := opt]> (tplSetOpts g) /\
  tplSets g' = tplSets g.
Proof.
  intros g' opt. subst g' opt.
  replace (prepareOptions options g)
    with (prepareOptions [hd zeroRenderOptions options] g)
    by now destruct options.
  unfold prepareOptions.
  destruct (hd zeroRenderOptions options)
    as [n d l ex fs ds cs ij ix pj px ct]. simpl.
  destruct n, d, ex, ct; simpl; repeat split; discriminate.
Qed.

(** X2. Whatever it is given, [prepareOptions] returns a configuration
    with a name, a directory, at least one extension and an HTML content
    type, registered under its own name (replacing an earlier
    registration of that name and no other); the compiled trees are not
    touched; only the first record counts, and its layout, function
    tables, delimiters, charset, indentation flags and prefixes are
    kept. *)
Theorem prepareOptions_complete (options : list RenderOptions) (g : Globals) :
  let o := hd zeroRenderOptions options in
  let g' := fst (prepareOptions options g) in
  let opt := snd (prepareOptions options g) in
  (Name opt <> EmptyString /\ Directory opt <> EmptyString /\
   Extensions opt <> [] /\ HTMLContentType opt <> EmptyString) /\
  (tplSetOpts g' = <[Name opt := opt]> (tplSetOpts g) /\
   tplSets g' = tplSets g) /\
  prepareOptions options g = prepareOptions [o] g /\
  (Layout opt = Layout o /\ Funcs opt = Funcs o /\
   Delims_ opt = Delims_ o /\ Charset opt = Charset o /\
   IndentJSON opt = IndentJSON o /\ IndentXML opt = IndentXML o /\
   PrefixJSON opt = PrefixJSON o /\ PrefixXML opt = PrefixXML o).
Proof.
  intros o g' opt.
  assert (prepareOptions options g = prepareOptions [o] g) as E
    by (subst o; now destruct options).
  subst g' opt. rewrite E. clear E. unfold prepareOptions.
  destruct o as [n d l ex fs ds cs ij ix pj px ct]. simpl.
  destruct n, d, ex, ct; simpl; repeat split; discriminate.
Qed.

(** X3. A configuration returned by [prepareOptions] is a fixed point:
    resolving it again returns it unchanged and leaves the registry as
    it is. *)
Theorem prepareOptions_idempotent (options : list RenderOptions) (g : Globals) :
  let g' := fst (prepareOptions options g) in
  let opt := snd (prepareOptions options g) in
  prepareOptions [opt] g' = (g', opt).
Proof.
  intros g' opt.
  destruct (prepareOptions_registers options g)
    as ((Hn & Hd & He & Hc) & Hreg & Htrees).
  fold g' opt in Hn, Hd, He, Hc, Hreg, Htrees. clearbody g' opt.
  destruct opt as [n d l ex fs ds cs ij ix pj px ct]. simpl in *.
  destruct g' as [trees opts]. simpl in *. subst opts.
  unfold prepareOptions.
  destruct n, d, ex, ct; try congruence. simpl.
  f_equal. f_equal. apply insert_insert_eq.
Qed.

(** ** The registry *)

Lemma compile_registry p o g g' :
  compile p o g = Ok g' -> tplSetOpts g' = tplSetOpts g.
Proof.
  destruct o as [o|]; [|discriminate].
  intros H. apply compile_Ok in H as (t & -> & _). reflexivity.
Qed.

Lemma renderBytes_registry fuel p r setName tplName v htmlOpt g g' res :
  renderBytes fuel p r setName tplName v htmlOpt g = Ok (g', res) ->
  tplSetOpts g' = tplSetOpts g.
Proof.
  unfold renderBytes.
  destruct (match Env p with
            | DEV => compile p (tplSetOpts g !! setName) g
            | PROD => Ok g
            end) as [g1| |] eqn:E; simpl; try discriminate.
  assert (tplSetOpts g1 = tplSetOpts g) as <-.
  { destruct (Env p); [now apply compile_registry in E|congruence]. }
  destruct (tplSets g1 !! setName) as [t|]; [|now intros [= <- _]].
  destruct (0 <? _)%nat;
    destruct (execute _ _ _ _) as [[out [err|]]| |]; simpl;
    try discriminate; now intros [= <- _].
Qed.

(** X4. Every configuration sits in [tplSetOpts] under its own name, and
    this is kept by everything that writes the registries:
    [prepareOptions], [compile], [SetTemplatePath] and the render calls,
    which never change [tplSetOpts] at all. *)
Theorem registered_kept (g : Globals) :
  registered g ->
  (forall options, registered (fst (prepareOptions options g))) /\
  (forall p o g', compile p o g = Ok g' -> registered g') /\
  (forall p setName dir g',
     Render.SetTemplatePath p setName dir g = Ok g' -> registered g') /\
  (forall fuel p r setName tplName v htmlOpt g' res,
     renderBytes fuel p r setName tplName v htmlOpt g = Ok (g', res) ->
     tplSetOpts g' = tplSetOpts g /\ registered g').
Proof.
  intros Hreg. split; [|split; [|split]].
  - intros options key o.
    destruct (prepareOptions_registers options g) as (_ & Hr & _).
    rewrite Hr. intros H.
    destruct (decide (Name (snd (prepareOptions options g)) = key)) as [E|E].
    + rewrite <- E, lookup_insert_eq in H. now injection H as <-.
    + rewrite lookup_insert_ne in H by assumption. now apply Hreg.
  - intros p o g' H key o'. rewrite (compile_registry _ _ _ _ H). apply Hreg.
  - intros p setName dir g'. unfold Render.SetTemplatePath.
    set (key := if (String.length setName =? 0)%nat
                then _DEFAULT_TPL_SET_NAME else setName).
    destruct (tplSetOpts g !! key) as [opt|] eqn:E; [|discriminate].
    intros H k o'. rewrite (compile_registry _ _ _ _ H). simpl.
    destruct (decide (key = k)) as [<-|Hne].
    + rewrite lookup_insert_eq. intros [= <-]. simpl. now apply Hreg.
    + rewrite lookup_insert_ne by assumption. apply Hreg.
  - intros fuel p r setName tplName v htmlOpt g' res H.
    pose proof (renderBytes_registry _ _ _ _ _ _ _ _ _ _ H) as E.
    split; [exact E|]. intros key o. rewrite E. apply Hreg.
Qed.

Lemma registered_kept_witness :
  registered (fst (prepareOptions [] emptyGlobals)) /\
  registered layoutGlobals.
Proof.
  assert (registered emptyGlobals) as H0
    by (intros key o H; simpl in H; now rewrite lookup_empty in H).
  destruct (registered_kept emptyGlobals H0) as (Hp & _).
  split; [apply Hp|].
  destruct (registered_kept (fst (prepareOptions [] emptyGlobals)) (Hp []))
    as (_ & Hc & _).
  apply (Hc (layoutProcess PROD Unix) (Some defaultOptions)).
  vm_compute. reflexivity.
Defined.

(** ** [compile] *)

(** The tree [compile] builds does not depend on the registries. *)
Lemma compile_tree p options g :
  compile p (Some options) g =
  (t <- (t0 <- Must (Directory options)
                 (template.Parse
                    (template.SetDelims (template.New (Directory options))
                       (Left (Delims_ options)) (Right (Delims_ options)))
                    (Directory options) "Macaron") ;;
         walkAll (Host p) options (Walk p (Directory options)) t0) ;;
   Ok (withTree g (Name options) t)).
Proof.
  unfold compile. destruct (Must _ _) as [t0| |]; simpl; try reflexivity.
Qed.

(** X5. A successful [compile] replaces the tree registered under the
    configuration's name and nothing else: the configurations and the
    trees of the other sets are as before.  The tree it builds depends
    on the configuration and the files only, so compiling again, from
    any state of the registries, installs the same tree. *)
Theorem compile_replaces_one_tree (p : Process) (options : RenderOptions)
    (g g' : Globals) :
  compile p (Some options) g = Ok g' ->
  exists t,
    g' = withTree g (Name options) t /\
    tplSetOpts g' = tplSetOpts g /\
    tplSets g' !! Name options = Some t /\
    (forall key, key <> Name options ->
                 tplSets g' !! key = tplSets g !! key) /\
    compile p (Some options) g' = Ok g' /\
    (forall g2, compile p (Some options) g2
                = Ok (withTree g2 (Name options) t)).
Proof.
  intros H. rewrite compile_tree in H.
  destruct (t0 <- Must _ _ ;; walkAll _ _ _ t0) as [t| |] eqn:E;
    simpl in H; try discriminate.
  injection H as <-. exists t.
  split; [reflexivity|]. split; [reflexivity|].
  split; [apply lookup_insert_eq|].
  split; [intros key Hne; simpl; now rewrite lookup_insert_ne|].
  split.
  - rewrite compile_tree, E. simpl. unfold withTree. simpl.
    now rewrite insert_insert_eq.
  - intros g2. now rewrite compile_tree, E.
Qed.

Lemma compile_replaces_one_tree_witness :
  tplSetOpts nestedGlobals = tplSetOpts emptyGlobals /\
  compile (nestedProcess Windows) (Some defaultOptions) nestedGlobals
  = Ok nestedGlobals.
Proof.
  destruct (compile_replaces_one_tree (nestedProcess Windows) defaultOptions
              emptyGlobals nestedGlobals) as (t & _ & Ho & _ & _ & Hi & _);
    [vm_compute; reflexivity|].
  split; [exact Ho|exact Hi].
Defined.

Lemma forExtensions_unreadable h options e r ext extensions t :
  ext ∈ extensions ->
  contents e = None ->
  exists pv, forExtensions h options e r ext extensions t = Panic pv.
Proof.
  intros Hin Hc. induction extensions as [|x xs IH]; simpl.
  - now apply elem_of_nil in Hin.
  - destruct (String.eqb_spec ext x) as [->|Hne].
    + rewrite Hc. eauto.
    + apply IH. apply elem_of_cons in Hin as [?|?]; [congruence|assumption].
Qed.

Lemma forExtensions_returns h options e r ext extensions t :
  forExtensions h options e r ext extensions t <> OutOfFuel.
Proof.
  induction extensions as [|x xs IH]; simpl; [discriminate|].
  destruct (String.eqb ext x); [|exact IH].
  destruct (contents e) as [buf|]; [|discriminate].
  now destruct (template.Parse _ _ _).
Qed.

Lemma walkAll_unreadable h options entries e t :
  e ∈ entries ->
  matched h options e = true ->
  contents e = None ->
  exists pv, walkAll h options entries t = Panic pv.
Proof.
  intros Hin Hm Hc. revert t.
  induction entries as [|e0 es IH]; intros t; [now apply elem_of_nil in Hin|].
  simpl. apply elem_of_cons in Hin as [<-|Hin].
  - unfold walkFn. apply bool_decide_eq_true in Hm.
    destruct (forExtensions_unreadable h options e
                (filepath.Rel h (below e)) _ _ t Hm Hc) as [pv ->].
    simpl. eauto.
  - destruct (walkFn h options t e0) as [t1|pv|] eqn:E; simpl.
    + now apply IH.
    + eauto.
    + now apply forExtensions_returns in E.
Qed.

(** X6. [compile] panics when the walk meets an entry that carries a
    configured extension and cannot be read, be it an unreadable file or
    a directory named like a template: the walk callback reads every
    matched entry without looking at its kind. *)
Theorem compile_unreadable_panics (p : Process) (options : RenderOptions)
    (g : Globals) (e : entry) :
  e ∈ Walk p (Directory options) ->
  matched (Host p) options e = true ->
  contents e = None ->
  exists pv, compile p (Some options) g = Panic pv.
Proof.
  intros Hin Hm Hc. rewrite compile_tree.
  destruct (Must _ _) as [t0|pv|] eqn:E0; simpl.
  - destruct (walkAll_unreadable _ _ _ _ t0 Hin Hm Hc) as [pv ->].
    simpl. eauto.
  - eauto.
  - unfold Must in E0. now destruct (template.Parse _ _ _).
Qed.

Lemma compile_unreadable_panics_witness :
  exists pv, compile directoryProcess (Some defaultOptions) emptyGlobals
             = Panic pv.
Proof.
  apply (compile_unreadable_panics directoryProcess defaultOptions
           emptyGlobals (mkEntry ["partials.tmpl"] None)).
  - apply list_elem_of_further, list_elem_of_here.
  - vm_compute. reflexivity.
  - reflexivity.
Defined.

Lemma forExtensions_same h options e1 e2 r ext extensions t :
  (ext ∈ extensions -> contents e1 = contents e2) ->
  forExtensions h options e1 r ext extensions t
  = forExtensions h options e2 r ext extensions t.
Proof.
  induction extensions as [|x xs IH]; intros H; simpl; [reflexivity|].
  destruct (String.eqb_spec ext x) as [->|Hne].
  - rewrite H; [reflexivity|apply list_elem_of_here].
  - apply IH. intros Hin. apply H. now apply list_elem_of_further.
Qed.

Lemma walkAll_same h options es1 es2 t :
  Forall2 (sameVisit h options) es1 es2 ->
  walkAll h options es1 t = walkAll h options es2 t.
Proof.
  intros H. revert t.
  induction H as [|e1 e2 es1 es2 [Hb Hc] _ IH]; intros t; [reflexivity|].
  simpl.
  assert (walkFn h options t e1 = walkFn h options t e2) as ->.
  { unfold walkFn. rewrite <- Hb. apply forExtensions_same.
    intros Hin. apply Hc. unfold matched. now apply bool_decide_eq_true. }
  destruct (walkFn h options t e2); simpl; [apply IH|reflexivity|reflexivity].
Qed.

(** X7. [compile] never reads an entry whose extension is not
    configured: two file systems whose walks visit the same paths and
    agree on the contents of the matched files give the same outcome,
    whatever the other entries hold and whether they can be read. *)
Theorem compile_reads_matched_only (p1 p2 : Process)
    (options : RenderOptions) (g : Globals) :
  Host p1 = Host p2 ->
  Forall2 (sameVisit (Host p1) options)
    (Walk p1 (Directory options)) (Walk p2 (Directory options)) ->
  compile p1 (Some options) g = compile p2 (Some options) g.
Proof.
  intros Hh Hw. rewrite !compile_tree, <- Hh.
  destruct (Must _ _) as [t0| |]; simpl; [|reflexivity|reflexivity].
  now rewrite (walkAll_same _ _ _ _ t0 Hw).
Qed.

Lemma compile_reads_matched_only_witness :
  compile (notesProcess (Some "x")) (Some defaultOptions) emptyGlobals
  = compile (notesProcess None) (Some defaultOptions) emptyGlobals.
Proof.
  apply (compile_reads_matched_only (notesProcess (Some "x"))
           (notesProcess None) defaultOptions emptyGlobals).
  - reflexivity.
  - repeat constructor; discriminate.
Defined.

Lemma walkAll_unmatched h options entries t :
  (forall e, e ∈ entries -> matched h options e = false) ->
  walkAll h options entries t = Ok t.
Proof.
  induction entries as [|e es IH]; intros H; simpl; [reflexivity|].
  unfold walkFn. rewrite forExtensions_unmatched.
  - simpl. apply IH. intros e' He'. apply H. now apply list_elem_of_further.
  - pose proof (H e (list_elem_of_here _ _)) as Hm. unfold matched in Hm.
    now apply bool_decide_eq_false in Hm.
Qed.

Lemma parseText_Macaron :
  template.parseText (S (String.length "Macaron")) "{{" "}}" ∅ "Macaron"
  = Some [AText "Macaron"].
Proof. vm_compute. reflexivity. Qed.

(** X8. Compiling a directory in which no entry carries a configured
    extension succeeds (with the standard delimiters): the set then
    holds one template, named after the directory, with no function at
    all, and executing it prints [Macaron]. *)
Theorem compile_without_templates (p : Process) (options : RenderOptions)
    (g : Globals) :
  Delims_ options = mkDelims EmptyString EmptyString ->
  (forall e, e ∈ Walk p (Directory options) ->
             matched (Host p) options e = false) ->
  let t := mkTemplate (Directory options) (mkDelims EmptyString EmptyString)
             ∅ (<[Directory options := [AText "Macaron"]]> ∅) in
  compile p (Some options) g = Ok (withTree g (Name options) t) /\
  (forall fuel v,
     execute (S fuel) t (Directory options) v = Ok ("Macaron", None)) /\
  (forall fuel v name,
     name <> Directory options ->
     execute (S fuel) t name v
     = Ok (EmptyString, Some (template.undefinedError name))).
Proof.
  intros Hd Hw t. split; [|split].
  - rewrite compile_tree. rewrite Hd.
    unfold template.Parse.
    change (template.parseText _ _ _ _ _)
      with (template.parseText (S (String.length "Macaron")) "{{" "}}" ∅
              "Macaron").
    rewrite parseText_Macaron. simpl.
    now rewrite walkAll_unmatched.
  - intros fuel v. rewrite execute_ExecuteTemplate. simpl.
    now rewrite lookup_insert_eq.
  - intros fuel v name Hne. rewrite execute_ExecuteTemplate. simpl.
    now rewrite lookup_insert_ne, lookup_empty.
Qed.

Lemma compile_without_templates_witness :
  exists t,
    compile (bareProcess PROD) (Some defaultOptions) emptyGlobals
    = Ok (withTree emptyGlobals "DEFAULT" t) /\
    execute 1 t "templates" VNil = Ok ("Macaron", None).
Proof.
  destruct (compile_without_templates (bareProcess PROD) defaultOptions
              emptyGlobals) as (Hc & Hx & _).
  - reflexivity.
  - intros e He. apply list_elem_of_singleton in He. subst e.
    vm_compute. reflexivity.
  - eexists. split; [exact Hc|apply Hx].
Defined.

Lemma ReplaceByte_other s old new c :
  old <> c -> new <> c ->
  strings.ContainsByte (strings.ReplaceByte s old new) c
  = strings.ContainsByte s c.
Proof.
  intros Ho Hn. induction s as [|a s IH]; simpl; [reflexivity|].
  rewrite IH. f_equal.
  destruct (Ascii.eqb_spec a old) as [->|Ha].
  - now rewrite (proj2 (Ascii.eqb_neq new c)), (proj2 (Ascii.eqb_neq old c)).
  - reflexivity.
Qed.

Lemma ToSlash_dots h s :
  strings.ContainsByte (filepath.ToSlash h s) dot
  = strings.ContainsByte s dot.
Proof.
  destruct h; [reflexivity|].
  unfold filepath.ToSlash. simpl. now apply ReplaceByte_other.
Qed.

(** X9. The name the walk callback gives the template of a file never
    holds a dot: all of the relative path from its first dot on is taken
    as the extension, so a matched file is parsed under a name without
    dot, whatever dots its path holds. *)
Theorem compile_names_without_dot (h : host) (options : RenderOptions)
    (t : Template) (e : entry) :
  matched h options e = true ->
  strings.ContainsByte (nodeName h e) dot = false /\
  walkFn h options t e =
  match contents e with
  | None =>
      Panic (PanicError (Errorf ("open " +:+ filepath.Rel h (below e)
                                 +:+ ": read error")))
  | Some buf =>
      Must (nodeName h e)
        (template.Parse
           (template.Funcs (fold_left template.Funcs (Funcs options) t)
              helperFuncs)
           (nodeName h e) buf)
  end.
Proof.
  intros Hm. split.
  - unfold nodeName. cbv zeta. rewrite ToSlash_dots, getExt_from_first.
    apply stem_no_dot.
  - now apply walkFn_matched.
Qed.

Lemma compile_names_without_dot_witness :
  let e := mkEntry ["jquery.min.html"] (Some "j") in
  matched Unix defaultOptions e = false /\
  matched Unix (withExtensions defaultOptions [".min.html"]) e = true /\
  nodeName Unix e = "jquery" /\
  strings.ContainsByte (nodeName Unix e) dot = false.
Proof.
  split; [vm_compute; reflexivity|].
  split; [vm_compute; reflexivity|].
  split; [reflexivity|].
  apply (compile_names_without_dot Unix
           (withExtensions defaultOptions [".min.html"])
           (template.New "templates")
           (mkEntry ["jquery.min.html"] (Some "j"))).
  vm_compute. reflexivity.
Defined.

(** ** The function table of a compiled tree *)

Lemma merge_from (fms : list FuncMap) (x : FuncMap) :
  fold_left (fun acc fm => fm ∪ acc) fms x = mergedFuncs fms ∪ x.
Proof.
  unfold mergedFuncs. revert x.
  induction fms as [|fm fms IH]; intros x; simpl.
  - now rewrite (left_id_L ∅ (∪)).
  - rewrite (IH (fm ∪ x)), (IH (fm ∪ ∅)).
    now rewrite (right_id_L ∅ (∪)), (assoc_L (∪)).
Qed.

Lemma tFuncs_fold_Funcs fms t :
  tFuncs (fold_left template.Funcs fms t) = mergedFuncs fms ∪ tFuncs t.
Proof.
  rewrite <- merge_from. revert t.
  induction fms as [|fm fms IH]; intros t; simpl; [reflexivity|].
  now rewrite IH.
Qed.

Lemma mergedFuncs_cons (fm : FuncMap) (fms : list FuncMap) :
  mergedFuncs (fm :: fms) = mergedFuncs fms ∪ fm.
Proof.
  unfold mergedFuncs at 1. simpl. rewrite merge_from.
  now rewrite (right_id_L ∅ (∪)).
Qed.

Lemma mergedFuncs_app (l1 l2 : list FuncMap) :
  mergedFuncs (l1 ++ l2) = mergedFuncs l2 ∪ mergedFuncs l1.
Proof.
  unfold mergedFuncs at 1. rewrite fold_left_app.
  fold (mergedFuncs l1). apply merge_from.
Qed.

Lemma mergedFuncs_unbound (fms : list FuncMap) (fn : string) :
  Forall (fun fm : FuncMap => fm !! fn = None) fms ->
  mergedFuncs fms !! fn = None.
Proof.
  induction 1 as [|fm fms Hfm _ IH]; [apply lookup_empty|].
  rewrite mergedFuncs_cons, lookup_union, IH, Hfm. reflexivity.
Qed.

(** X10. The function table a template file is parsed with.  The walk
    callback merges the tables of [options.Funcs] into the table of the
    tree in order, later tables over earlier ones, and the built-in
    helpers last.  So while a file is parsed [yield] and [current] are
    the built-in ones, whatever the configured tables define; every
    other name is bound as the last configured table that has it binds
    it, and as the tree bound it before when no configured table has
    it. *)
Theorem compile_function_table (h : host) (options : RenderOptions)
    (t : Template) (e : entry) (buf : string) :
  matched h options e = true ->
  contents e = Some buf ->
  let tmpl :=
    template.Funcs (fold_left template.Funcs (Funcs options) t) helperFuncs in
  walkFn h options t e
  = Must (nodeName h e) (template.Parse tmpl (nodeName h e) buf) /\
  tFuncs tmpl = helperFuncs ∪ (mergedFuncs (Funcs options) ∪ tFuncs t) /\
  tFuncs tmpl !! "yield" = Some HelperYield /\
  tFuncs tmpl !! "current" = Some HelperCurrent /\
  (forall fn earlier fm later f,
     fn <> "yield" -> fn <> "current" ->
     Funcs options = (earlier ++ fm :: later)%list ->
     fm !! fn = Some f ->
     Forall (fun fm' : FuncMap => fm' !! fn = None) later ->
     tFuncs tmpl !! fn = Some f) /\
  (forall fn,
     fn <> "yield" -> fn <> "current" ->
     Forall (fun fm : FuncMap => fm !! fn = None) (Funcs options) ->
     tFuncs tmpl !! fn = tFuncs t !! fn).
Proof.
  intros Hm Hc tmpl.
  assert (tFuncs tmpl = helperFuncs ∪ (mergedFuncs (Funcs options) ∪ tFuncs t))
    as Htable.
  { subst tmpl. simpl. now rewrite tFuncs_fold_Funcs. }
  assert (forall fn, fn <> "yield" -> fn <> "current" ->
            tFuncs tmpl !! fn
            = (mergedFuncs (Funcs options) ∪ tFuncs t) !! fn) as Hother.
  { intros fn Hy Hcur. rewrite Htable. apply lookup_union_r.
    unfold helperFuncs.
    now rewrite !lookup_insert_ne, lookup_empty by congruence. }
  split; [rewrite (walkFn_matched _ _ _ _ Hm), Hc; reflexivity|].
  split; [exact Htable|].
  split; [rewrite Htable; apply helperFuncs_yield|].
  split; [rewrite Htable; apply helperFuncs_current|].
  split.
  - intros fn earlier fm later f Hy Hcur Hf Hfm Hlater.
    rewrite (Hother fn Hy Hcur), Hf, mergedFuncs_app, mergedFuncs_cons.
    rewrite !lookup_union, (mergedFuncs_unbound later fn Hlater), Hfm.
    simpl. now destruct (mergedFuncs earlier !! fn), (tFuncs t !! fn).
  - intros fn Hy Hcur Hnone.
    rewrite (Hother fn Hy Hcur), lookup_union.
    rewrite (mergedFuncs_unbound _ fn Hnone).
    now destruct (tFuncs t !! fn).
Qed.

Lemma compile_function_table_witness :
  let tmpl :=
    template.Funcs
      (fold_left template.Funcs (Funcs userOptions) (template.New "templates"))
      helperFuncs in
  userFuncs !! "yield" = Some (UserString "mine") /\
  tFuncs tmpl !! "yield" = Some HelperYield /\
  tFuncs tmpl !! "title" = Some (UserString "T").
Proof.
  split; [reflexivity|].
  destruct (compile_function_table Unix userOptions
              (template.New "templates") (mkEntry ["a.tmpl"] (Some "A")) "A")
    as (_ & _ & Hy & _ & Hlast & _);
    [vm_compute; reflexivity|reflexivity|].
  split; [exact Hy|].
  apply (Hlast "title" [] userFuncs []);
    [discriminate|discriminate|reflexivity|reflexivity|constructor].
Defined.

(** ** Data rendering *)

(** X11. When marshaling succeeds, [XML] marshals with indentation
    exactly when [IndentXML] is set, and the sink receives, in this
    order and nothing else: the content type [text/xml] followed by the
    charset suffix, the status line, the XML prefix when a non-empty one
    is configured, and the marshaled body.  The JSON settings play no
    part. *)
Theorem XML_success (m : Marshalers) (r : TplRender) (status : Z)
    (v : value) (result : string) :
  (IndentXML (Opt r) = true /\ xml_MarshalIndent m v = inl result) \/
  (IndentXML (Opt r) = false /\ xml_Marshal m v = inl result) ->
  let w := RW (XML m r status v) in
  Calls w = (Calls (RW r) ++
    [CallHeaderSet "Content-Type" ("text/xml" +:+ CompiledCharset r);
     CallWriteHeader status] ++
    match PrefixXML (Opt r) with
    | EmptyString => []
    | prefix => [CallWrite prefix]
    end ++
    [CallWrite result])%list /\
  http.HeaderGet w "Content-Type" = "text/xml" +:+ CompiledCharset r /\
  Status w = Some (default status (Status (RW r))) /\
  Body w = Body (RW r) +:+ PrefixXML (Opt r) +:+ result.
Proof.
  intros H. unfold XML.
  assert ((if IndentXML (Opt r) then xml_MarshalIndent m v
           else xml_Marshal m v) = inl result) as ->.
  { destruct H as [[-> ?]|[-> ?]]; assumption. }
  destruct (PrefixXML (Opt r)) as [|a prefix] eqn:E; simpl.
  - repeat split.
    + now rewrite <- !app_assoc.
    + unfold http.HeaderGet. simpl. now rewrite lookup_insert_eq.
    + now destruct (Status (RW r)).
  - repeat split.
    + now rewrite <- !app_assoc.
    + unfold http.HeaderGet. simpl. now rewrite lookup_insert_eq.
    + now destruct (Status (RW r)).
    + now rewrite append_assoc.
Qed.

Lemma XML_success_witness :
  let w := RW (XML sampleMarshalers xhtmlRender 201 VNil) in
  http.HeaderGet w "Content-Type" = "text/xml; charset=ISO-8859-1" /\
  Status w = Some 201%Z /\
  Body w = "<?xml version='1.0'?>" +:+ http.newline
           +:+ "<v>null</v>" +:+ http.newline.
Proof.
  destruct (XML_success sampleMarshalers xhtmlRender 201 VNil
              ("<v>null</v>" +:+ http.newline)) as (_ & Hh & Hs & Hb).
  - left. split; reflexivity.
  - split; [exact Hh|]. split; [exact Hs|exact Hb].
Defined.

(** X12. [JSONString] and [JSON] marshal alike: when [JSONString]
    returns a string, [JSON] writes the configured prefix followed by
    exactly that string (the prefix is never part of what [JSONString]
    returns); when [JSONString] returns an error, with the empty string,
    [JSON] answers through [http.Error] with that error's text. *)
Theorem JSONString_agrees_with_JSON (m : Marshalers) (r : TplRender)
    (status : Z) (v : value) :
  match JSONString m r v with
  | (s, None) =>
      Body (RW (JSON m r status v)) = Body (RW r) +:+ PrefixJSON (Opt r) +:+ s
  | (s, Some err) =>
      s = EmptyString /\
      RW (JSON m r status v) = http.Error_ (RW r) (Error err) 500
  end.
Proof.
  unfold JSONString, JSON.
  destruct (if IndentJSON (Opt r) then json_MarshalIndent m v
            else json_Marshal m v) as [result|err]; [|now split].
  destruct (PrefixJSON (Opt r)) as [|a prefix]; simpl; [reflexivity|].
  now rewrite append_assoc.
Qed.

(** X13. Of two data calls on one sink the first decides the content
    type and the status: after [RawData] on a sink without content type,
    [RenderData] keeps [application/octet-stream] (it does not switch to
    [text/html]), the status line stays the first one, and the body is
    the two payloads one after the other.  Neither call appends the
    charset suffix. *)
Theorem data_first_call_decides (r : TplRender) (s1 s2 : Z) (v1 v2 : string) :
  http.HeaderGet (RW r) "Content-Type" = EmptyString ->
  let w := RW (RenderData (RawData r s1 v1) s2 v2) in
  http.HeaderGet w "Content-Type" = "application/octet-stream" /\
  Header w = <["Content-Type" := ["application/octet-stream"]]> (Header (RW r)) /\
  Status w = Some (default s1 (Status (RW r))) /\
  Body w = Body (RW r) +:+ v1 +:+ v2.
Proof.
  intros H.
  unfold RenderData, RawData, data, ContentType, ContentBinary, ContentHTML.
  rewrite H.
  change (String.eqb EmptyString EmptyString) with true. cbv iota.
  set (w1 := http.Write_
               (http.WriteHeader
                  (http.HeaderSet (RW r) "Content-Type"
                     "application/octet-stream") s1) v1).
  assert (http.HeaderGet (RW (withRW r w1)) "Content-Type"
          = "application/octet-stream") as ->
    by (unfold http.HeaderGet; simpl; now rewrite lookup_insert_eq).
  change (String.eqb "application/octet-stream" EmptyString) with false.
  cbv iota. subst w1. simpl.
  split; [|split; [|split]].
  - unfold http.HeaderGet. simpl. now rewrite lookup_insert_eq.
  - reflexivity.
  - now destruct (Status (RW r)).
  - now rewrite append_assoc.
Qed.

Lemma data_first_call_decides_witness :
  let w := RW (RenderData (RawData xhtmlRender 201 "ab") 404 "cd") in
  http.HeaderGet w "Content-Type" = "application/octet-stream" /\
  Status w = Some 201%Z /\
  Body w = "abcd".
Proof.
  destruct (data_first_call_decides xhtmlRender 201 404 "ab" "cd" eq_refl)
    as (Hh & _ & Hs & Hb).
  split; [exact Hh|]. split; [exact Hs|exact Hb].
Defined.

(** X14. [Error] writes the status line and then the first message only:
    further messages are dropped, the header map is never touched (no
    content type is set), and without a message nothing is written to
    the body, which makes [Error(status)] the same as [Status(status)]. *)
Theorem Error_first_message_only (r : TplRender) (status : Z)
    (msg : string) (more : list string) :
  Render.Error r status (msg :: more) = Render.Error r status [msg] /\
  Header (RW (Render.Error r status (msg :: more))) = Header (RW r) /\
  Body (RW (Render.Error r status (msg :: more))) = Body (RW r) +:+ msg /\
  Calls (RW (Render.Error r status (msg :: more)))
  = (Calls (RW r) ++ [CallWriteHeader status; CallWrite msg])%list /\
  Status (RW (Render.Error r status (msg :: more)))
  = Some (default status (Status (RW r))) /\
  Render.Error r status [] = Render.Status r status /\
  Body (RW (Render.Error r status [])) = Body (RW r).
Proof.
  unfold Render.Error, Render.Status. simpl. repeat split.
  - now rewrite <- app_assoc.
  - now destruct (Status (RW r)).
Qed.

(** ** HTML rendering *)

(** [renderBytes] looks at the renderer's options only. *)
Lemma renderBytes_Opt fuel p r1 r2 setName tplName v htmlOpt g :
  Opt r1 = Opt r2 ->
  renderBytes fuel p r1 setName tplName v htmlOpt g
  = renderBytes fuel p r2 setName tplName v htmlOpt g.
Proof.
  intros H. unfold renderBytes, prepareHTMLOptions. now rewrite H.
Qed.

(** X15. [HTMLSetString] and [HTMLSet] render alike: when
    [HTMLSetString] returns a page, [HTMLSet] leaves the registries in
    the same state and the sink receives the set's HTML content type
    followed by the charset suffix, the status line, and that page as
    the body, in one write, or in none when the page is empty; the
    renderer records the time of the call. *)
Theorem HTMLSetString_agrees_with_HTMLSet (fuel : nat) (p : Process)
    (r : TplRender) (status : Z) (setName tplName : string) (v : value)
    (htmlOpt : list HTMLOptions) (g g' : Globals) (out : string) :
  HTMLSetString fuel p r setName tplName v htmlOpt g = Ok (g', (out, None)) ->
  exists r',
    HTMLSet fuel p r status setName tplName v htmlOpt g = Ok (g', r') /\
    (Opt r' = Opt r /\ CompiledCharset r' = CompiledCharset r /\
     startTime r' = Some (Now p)) /\
    Calls (RW r') = (Calls (RW r) ++
      [CallHeaderSet "Content-Type"
         (HTMLContentType (Opt r) +:+ CompiledCharset r);
       CallWriteHeader status] ++
      match out with
      | EmptyString => []
      | _ => [CallWrite out]
      end)%list /\
    http.HeaderGet (RW r') "Content-Type"
    = HTMLContentType (Opt r) +:+ CompiledCharset r /\
    Status (RW r') = Some (default status (Status (RW r))) /\
    Body (RW r') = Body (RW r) +:+ out.
Proof.
  unfold HTMLSetString, renderHTMLString, HTMLSet, renderHTML.
  rewrite (renderBytes_Opt fuel p
             (mkTplRender (RW r) (Opt r) (CompiledCharset r) (Some (Now p)))
             r) by reflexivity.
  destruct (renderBytes fuel p r setName tplName v htmlOpt g)
    as [[g1 [out1|err]]| |]; simpl; try discriminate.
  intros [= <- <-]. eexists. split; [reflexivity|].
  split; [repeat split|].
  destruct out1 as [|a out1]; simpl; repeat split;
    first [ now rewrite <- !app_assoc
          | now destruct (Status (RW r))
          | now rewrite append_nil_r
          | unfold http.HeaderGet; simpl; now rewrite lookup_insert_eq ].
Qed.

Lemma HTMLSetString_agrees_with_HTMLSet_witness :
  exists r',
    HTMLSet 1 (layoutProcess PROD Unix) xhtmlRender 200 "DEFAULT" "content"
      VNil [] layoutGlobals = Ok (layoutGlobals, r') /\
    http.HeaderGet (RW r') "Content-Type"
    = "application/xhtml+xml; charset=ISO-8859-1" /\
    Body (RW r') = "body".
Proof.
  destruct (HTMLSetString_agrees_with_HTMLSet 1 (layoutProcess PROD Unix)
              xhtmlRender 200 "DEFAULT" "content" VNil [] layoutGlobals
              layoutGlobals "body")
    as (r' & Hr & _ & _ & Hh & _ & Hb);
    [vm_compute; reflexivity|].
  exists r'. split; [exact Hr|]. split; [exact Hh|exact Hb].
Defined.

(** X16. When [HTMLSetString] returns an error (with the empty string),
    [HTMLSet] answers through [http.Error] with that error's text and
    status 500, and does nothing else: the HTML content type is not set
    and nothing of the page is written. *)
Theorem HTMLSet_error_reply (fuel : nat) (p : Process)
    (r : TplRender) (status : Z) (setName tplName : string) (v : value)
    (htmlOpt : list HTMLOptions) (g g' : Globals) (s : string) (err : error) :
  HTMLSetString fuel p r setName tplName v htmlOpt g
  = Ok (g', (s, Some err)) ->
  s = EmptyString /\
  exists r',
    HTMLSet fuel p r status setName tplName v htmlOpt g = Ok (g', r') /\
    RW r' = http.Error_ (RW r) (Error err) 500 /\
    http.HeaderGet (RW r') "Content-Type" = "text/plain; charset=utf-8" /\
    Status (RW r') = Some (default 500%Z (Status (RW r))) /\
    Body (RW r') = Body (RW r) +:+ Error err +:+ http.newline.
Proof.
  unfold HTMLSetString, renderHTMLString, HTMLSet, renderHTML.
  rewrite (renderBytes_Opt fuel p
             (mkTplRender (RW r) (Opt r) (CompiledCharset r) (Some (Now p)))
             r) by reflexivity.
  destruct (renderBytes fuel p r setName tplName v htmlOpt g)
    as [[g1 [out1|err1]]| |]; simpl; try discriminate.
  intros [= <- <- <-]. split; [reflexivity|].
  eexists. split; [reflexivity|]. split; [reflexivity|].
  apply (http_Error_effects (RW r) (Error err1) 500).
Qed.

Lemma HTMLSet_error_reply_witness :
  exists r',
    HTMLSet 1 (layoutProcess PROD Unix) defaultRender 200 "DEFAULT" "nope"
      VNil [] layoutGlobals = Ok (layoutGlobals, r') /\
    Status (RW r') = Some 500%Z /\
    Body (RW r') = "html/template: " +:+ dquote +:+ "nope" +:+ dquote
                   +:+ " is undefined" +:+ http.newline.
Proof.
  destruct (HTMLSet_error_reply 1 (layoutProcess PROD Unix)
              defaultRender 200 "DEFAULT" "nope" VNil [] layoutGlobals
              layoutGlobals EmptyString (template.undefinedError "nope"))
    as (_ & r' & Hr & _ & _ & Hs & Hb);
    [vm_compute; reflexivity|].
  exists r'. split; [exact Hr|]. split; [exact Hs|exact Hb].
Defined.

(** X17. A name that is not a template of the set is reported as an
    error that names it, the call returns: without layout the missing
    name is the requested template; with a layout that is not in the set
    the error names the layout, and the tree has been rebound for the
    requested template all the same. *)
Theorem render_unknown_template (fuel : nat) (p : Process) (r : TplRender)
    (setName tplName : string) (v : value) (htmlOpt : list HTMLOptions)
    (g g1 : Globals) (t : Template) :
  recompiled p setName g = Ok g1 ->
  tplSets g1 !! setName = Some t ->
  (resolvedLayout r htmlOpt = EmptyString ->
   tSet t !! tplName = None ->
   renderBytes (S fuel) p r setName tplName v htmlOpt g
   = Ok (g1, inr (template.undefinedError tplName))) /\
  (resolvedLayout r htmlOpt <> EmptyString ->
   tSet t !! resolvedLayout r htmlOpt = None ->
   renderBytes (S fuel) p r setName tplName v htmlOpt g
   = Ok (withTree g1 setName (addYield t tplName v),
         inr (template.undefinedError (resolvedLayout r htmlOpt)))).
Proof.
  intros Hc Ht. split; intros Hl Hn.
  - rewrite (renderBytes_resolved _ p r _ _ _ _ _ _ _ Hc Ht), Hl.
    simpl. rewrite execute_ExecuteTemplate. simpl. now rewrite Hn.
  - rewrite (renderBytes_resolved _ p r _ _ _ _ _ _ _ Hc Ht).
    destruct (resolvedLayout r htmlOpt) as [|a l] eqn:E; [congruence|].
    simpl. rewrite execute_ExecuteTemplate. simpl. now rewrite Hn.
Qed.

Lemma render_unknown_template_witness :
  renderBytes 1 (layoutProcess PROD Unix) defaultRender "DEFAULT" "nope"
    VNil [] layoutGlobals
  = Ok (layoutGlobals, inr (template.undefinedError "nope")) /\
  renderBytes 1 (layoutProcess PROD Unix) defaultRender "DEFAULT" "content"
    VNil [mkHTMLOptions "frame"] layoutGlobals
  = Ok (withTree layoutGlobals "DEFAULT" (addYield layoutTree "content" VNil),
        inr (template.undefinedError "frame")).
Proof.
  split.
  - destruct (render_unknown_template 0 (layoutProcess PROD Unix)
                defaultRender "DEFAULT" "nope" VNil [] layoutGlobals
                layoutGlobals layoutTree) as [H _];
      [reflexivity|vm_compute; reflexivity|].
    apply H; vm_compute; reflexivity.
  - destruct (render_unknown_template 0 (layoutProcess PROD Unix)
                defaultRender "DEFAULT" "content" VNil
                [mkHTMLOptions "frame"] layoutGlobals
                layoutGlobals layoutTree) as [_ H];
      [reflexivity|vm_compute; reflexivity|].
    apply H; [discriminate|vm_compute; reflexivity].
Defined.

(** ** What a render call depends on *)

(** X18. In production mode a render call reads the compiled trees and
    nothing else of the process: with the same trees and the same
    resolved layout, two calls return the same buffer or error and leave
    the same trees, whatever the files, the host, the clock, the
    registered configurations and the rest of the renderer are. *)
Theorem production_render_reads_trees_only (fuel : nat) (p1 p2 : Process)
    (r1 r2 : TplRender) (setName tplName : string) (v : value)
    (o1 o2 : list HTMLOptions) (g1 g2 : Globals) :
  Env p1 = PROD -> Env p2 = PROD ->
  tplSets g1 = tplSets g2 ->
  resolvedLayout r1 o1 = resolvedLayout r2 o2 ->
  sameRender (renderBytes fuel p1 r1 setName tplName v o1 g1)
             (renderBytes fuel p2 r2 setName tplName v o2 g2).
Proof.
  intros E1 E2 Ht Hl. unfold renderBytes. rewrite E1, E2. simpl.
  fold (resolvedLayout r1 o1) (resolvedLayout r2 o2).
  rewrite <- Ht, <- Hl.
  destruct (tplSets g1 !! setName) as [t|]; [|now split].
  destruct (0 <? _)%nat;
    destruct (execute _ _ _ _) as [[out [err|]]| |]; simpl;
    try easy; split; try reflexivity; now rewrite Ht.
Qed.

Lemma production_render_reads_trees_only_witness :
  sameRender
    (renderBytes 2 (layoutProcess PROD Unix) layoutRender "DEFAULT"
       "content" VNil [] layoutGlobals)
    (renderBytes 2 (bareProcess PROD) defaultRender "DEFAULT"
       "content" VNil [mkHTMLOptions "layout"]
       (mkGlobals (tplSets layoutGlobals) ∅)).
Proof.
  apply (production_render_reads_trees_only 2 (layoutProcess PROD Unix)
           (bareProcess PROD) layoutRender defaultRender "DEFAULT" "content"
           VNil [] [mkHTMLOptions "layout"] layoutGlobals
           (mkGlobals (tplSets layoutGlobals) ∅)); reflexivity.
Defined.

(** X19. In development mode a render call of a registered set does not
    depend on the trees compiled before: the set is recompiled first, so
    two states with the same configurations give the same buffer or
    error (or the same panic of [compile]). *)
Theorem development_render_ignores_old_trees (fuel : nat) (p : Process)
    (r : TplRender) (setName tplName : string) (v : value)
    (htmlOpt : list HTMLOptions) (g1 g2 : Globals) (o : RenderOptions) :
  Env p = DEV ->
  tplSetOpts g1 = tplSetOpts g2 ->
  tplSetOpts g1 !! setName = Some o ->
  Name o = setName ->
  sameResult (renderBytes fuel p r setName tplName v htmlOpt g1)
             (renderBytes fuel p r setName tplName v htmlOpt g2).
Proof.
  intros He Ho Hs Hn. unfold renderBytes. rewrite He, <- Ho, Hs.
  rewrite !compile_tree.
  destruct (t0 <- Must _ _ ;; walkAll _ _ _ t0) as [t| |]; simpl;
    [|reflexivity|exact I].
  rewrite Hn, !lookup_insert_eq.
  destruct (0 <? _)%nat;
    destruct (execute _ _ _ _) as [[out [err|]]| |]; simpl; easy.
Qed.

Lemma development_render_ignores_old_trees_witness :
  sameResult
    (renderBytes 2 (layoutProcess DEV Unix) defaultRender "DEFAULT"
       "content" VNil [] layoutGlobals)
    (renderBytes 2 (layoutProcess DEV Unix) defaultRender "DEFAULT"
       "content" VNil []
       (mkGlobals (tplSets helperGlobals) (tplSetOpts layoutGlobals))).
Proof.
  apply (development_render_ignores_old_trees 2 (layoutProcess DEV Unix)
           defaultRender "DEFAULT" "content" VNil [] layoutGlobals
           (mkGlobals (tplSets helperGlobals) (tplSetOpts layoutGlobals))
           defaultOptions); vm_compute; reflexivity.
Defined.

(** X20. In production mode a render call returns whenever the
    execution of the template does, with the page or with the error of
    the execution, and a set that is not compiled is an error as well,
    not the panic of development mode.  [HTMLSet]
    answers with the page under the given status, or with the error's
    text under status 500.  Without layout the registries are left as
    they are; with a layout the rebound tree is written back. *)
Theorem production_render_returns (fuel : nat) (p : Process)
    (r : TplRender) (status : Z) (setName tplName : string) (v : value)
    (htmlOpt : list HTMLOptions) (g : Globals) :
  Env p = PROD ->
  let answers (g' : Globals) (x : string + error) :=
    renderBytes fuel p r setName tplName v htmlOpt g = Ok (g', x) /\
    exists r',
      HTMLSet fuel p r status setName tplName v htmlOpt g = Ok (g', r') /\
      RW r' = replied r status x in
  (tplSets g !! setName = None ->
   answers g (inr (undefinedSet tplName))) /\
  (forall t res,
     tplSets g !! setName = Some t ->
     resolvedLayout r htmlOpt = EmptyString ->
     template.ExecuteTemplate fuel t tplName v = Ok res ->
     answers g (returned res)) /\
  (forall t res,
     tplSets g !! setName = Some t ->
     resolvedLayout r htmlOpt <> EmptyString ->
     template.ExecuteTemplate fuel (addYield t tplName v)
       (resolvedLayout r htmlOpt) v = Ok res ->
     answers (withTree g setName (addYield t tplName v)) (returned res)).
Proof.
  intros He answers.
  assert (forall g' x,
            renderBytes fuel p r setName tplName v htmlOpt g = Ok (g', x) ->
            answers g' x) as Hanswers.
  { intros g' x Hb. split; [exact Hb|].
    unfold HTMLSet, renderHTML.
    rewrite (renderBytes_Opt fuel p
               (mkTplRender (RW r) (Opt r) (CompiledCharset r) (Some (Now p)))
               r) by reflexivity.
    rewrite Hb. destruct x as [out|err]; simpl; eexists;
      (split; [reflexivity|reflexivity]). }
  split; [|split].
  - intros Hn. apply Hanswers. unfold renderBytes. rewrite He. simpl.
    now rewrite Hn.
  - intros t res Ht Hl Hx. apply Hanswers.
    rewrite (renderBytes_resolved fuel p r setName tplName v htmlOpt g g t);
      [|unfold recompiled; now rewrite He|exact Ht].
    rewrite Hl. simpl. rewrite execute_ExecuteTemplate, Hx. reflexivity.
  - intros t res Ht Hl Hx. apply Hanswers.
    rewrite (renderBytes_resolved fuel p r setName tplName v htmlOpt g g t);
      [|unfold recompiled; now rewrite He|exact Ht].
    destruct (resolvedLayout r htmlOpt) as [|a l]; [congruence|].
    simpl. rewrite execute_ExecuteTemplate, Hx. reflexivity.
Qed.

Lemma production_render_returns_witness :
  exists r',
    HTMLSet 1 (helperProcess PROD) defaultRender 200 "DEFAULT" "b" VNil []
      helperGlobals = Ok (helperGlobals, r') /\
    Status (RW r') = Some 500%Z /\
    Body (RW r')
    = Error (template.callError "b" "yield"
               (Errorf "yield called with no layout defined"))
      +:+ http.newline.
Proof.
  destruct (production_render_returns 1 (helperProcess PROD) defaultRender
              200 "DEFAULT" "b" VNil [] helperGlobals) as (_ & Hplain & _);
    [reflexivity|].
  destruct (Hplain helperTree
              (EmptyString,
               Some (template.callError "b" "yield"
                       (Errorf "yield called with no layout defined"))))
    as (_ & r' & Hr & Hrw);
    [vm_compute; reflexivity|reflexivity|vm_compute; reflexivity|].
  exists r'. split; [exact Hr|]. rewrite Hrw. split; reflexivity.
Defined.

(** X21. In production mode a render call never adds, removes or changes
    a template: the configurations and the nodes of every tree are as
    before, the trees of the other sets are untouched, and in the tree
    of the rendered set only the bindings of [yield] and [current] can
    change; a call without layout changes nothing at all. *)
Theorem production_render_keeps_templates (fuel : nat) (p : Process)
    (r : TplRender) (setName tplName : string) (v : value)
    (htmlOpt : list HTMLOptions) (g g' : Globals) (res : string + error) :
  Env p = PROD ->
  renderBytes fuel p r setName tplName v htmlOpt g = Ok (g', res) ->
  tplSetOpts g' = tplSetOpts g /\
  (forall key, tSet <$> tplSets g' !! key = tSet <$> tplSets g !! key) /\
  (forall key, key <> setName -> tplSets g' !! key = tplSets g !! key) /\
  (forall t t' fn,
     tplSets g !! setName = Some t -> tplSets g' !! setName = Some t' ->
     fn <> "yield" -> fn <> "current" ->
     tFuncs t' !! fn = tFuncs t !! fn) /\
  (resolvedLayout r htmlOpt = EmptyString -> g' = g).
Proof.
  intros He. unfold renderBytes. rewrite He. simpl.
  fold (resolvedLayout r htmlOpt).
  destruct (tplSets g !! setName) as [t|] eqn:Et.
  2:{ intros [= <- _]. rewrite Et. repeat split; congruence. }
  destruct (resolvedLayout r htmlOpt) as [|a l] eqn:El; simpl.
  - destruct (execute _ _ _ _) as [[out [err|]]| |]; simpl;
      try discriminate; intros [= <- _]; rewrite Et;
      repeat split; congruence.
  - assert (forall x : Globals * (string + error),
              Ok (mkGlobals (<[setName := addYield t tplName v]> (tplSets g))
                    (tplSetOpts g), snd x) = Ok (g', res) ->
              tplSetOpts g' = tplSetOpts g /\
              (forall key, tSet <$> tplSets g' !! key
                           = tSet <$> tplSets g !! key) /\
              (forall key, key <> setName ->
                           tplSets g' !! key = tplSets g !! key) /\
              (forall t0 t' fn,
                 Some t = Some t0 -> tplSets g' !! setName = Some t' ->
                 fn <> "yield" -> fn <> "current" ->
                 tFuncs t' !! fn = tFuncs t0 !! fn) /\
              (String a l = EmptyString -> g' = g)) as Hgoal.
    { intros x [= <- _]. simpl. split; [reflexivity|]. split; [|split; [|split]].
      - intros key. destruct (decide (setName = key)) as [<-|Hne].
        + now rewrite lookup_insert_eq, Et.
        + now rewrite lookup_insert_ne.
      - intros key Hne. now rewrite lookup_insert_ne.
      - intros t0 t' fn [= <-]. rewrite lookup_insert_eq. intros [= <-].
        apply addYield_others.
      - discriminate. }
    destruct (execute _ _ _ _) as [[out [err|]]| |]; simpl;
      try discriminate; intros H.
    + apply (Hgoal (g, inr err) H).
    + apply (Hgoal (g, inl out) H).
Qed.

Lemma production_render_keeps_templates_witness :
  tSet <$> tplSets (withTree layoutGlobals "DEFAULT"
                      (addYield layoutTree "content" VNil)) !! "DEFAULT"
  = tSet <$> tplSets layoutGlobals !! "DEFAULT".
Proof.
  destruct (production_render_keeps_templates 2 (layoutProcess PROD Unix)
              defaultRender "DEFAULT" "content" VNil [mkHTMLOptions "layout"]
              layoutGlobals
              (withTree layoutGlobals "DEFAULT"
                 (addYield layoutTree "content" VNil))
              (inl "<html>body</html>")) as (_ & Hnodes & _);
    [reflexivity|vm_compute; reflexivity|apply Hnodes].
Defined.

Lemma addYield_addYield t a va b vb :
  addYield (addYield t a va) b vb = addYield t b vb.
Proof.
  unfold addYield, template.Funcs. simpl. f_equal.
  apply map_eq. intros i. rewrite !lookup_union.
  destruct (decide (i = "yield")) as [->|Hy].
  - rewrite !lookup_insert_eq. now destruct (tFuncs t !! "yield").
  - rewrite !(lookup_insert_ne _ "yield" i) by congruence.
    destruct (decide (i = "current")) as [->|Hc].
    + rewrite !lookup_insert_eq. now destruct (tFuncs t !! "current").
    + rewrite !(lookup_insert_ne _ "current" i) by congruence.
      rewrite !lookup_empty. now destruct (tFuncs t !! i).
Qed.

(** X22. Renders with a layout do not disturb one another: [addYield]
    overwrites the bindings of the call before, so, in production mode,
    a call with a layout gives after any earlier render call of the set
    exactly what it gives without it, registries included. *)
Theorem layout_render_after_render (f1 f2 : nat) (p : Process)
    (r1 r2 : TplRender) (setName a b : string) (va vb : value)
    (o1 o2 : list HTMLOptions) (g g1 : Globals) (x1 : string + error) :
  Env p = PROD ->
  renderBytes f1 p r1 setName a va o1 g = Ok (g1, x1) ->
  resolvedLayout r2 o2 <> EmptyString ->
  renderBytes f2 p r2 setName b vb o2 g1
  = renderBytes f2 p r2 setName b vb o2 g.
Proof.
  intros He H1 Hl.
  assert (g1 = g \/
          exists t, tplSets g !! setName = Some t /\
                    g1 = withTree g setName (addYield t a va)) as Hg.
  { revert H1. unfold renderBytes. rewrite He. simpl.
    destruct (tplSets g !! setName) as [t|]; [|intros [= <- _]; now left].
    destruct (0 <? _)%nat;
      destruct (execute _ _ _ _) as [[out [err|]]| |]; simpl;
      try discriminate; intros [= <- _];
      solve [now left | right; now exists t]. }
  destruct Hg as [->|(t & Ht & ->)]; [reflexivity|].
  unfold renderBytes. rewrite He. simpl.
  fold (resolvedLayout r2 o2). rewrite lookup_insert_eq, Ht.
  destruct (resolvedLayout r2 o2) as [|c l]; [congruence|]. simpl.
  rewrite addYield_addYield, insert_insert_eq. reflexivity.
Qed.

Lemma layout_render_after_render_witness :
  renderBytes 2 pagesProcess defaultRender "DEFAULT" "a" VNil
    [mkHTMLOptions "layout"] pagesGlobals
  = Ok (withTree pagesGlobals "DEFAULT" (addYield pagesTree "a" VNil),
        inl "<html>A</html>") /\
  renderBytes 2 pagesProcess defaultRender "DEFAULT" "c" VNil
    [mkHTMLOptions "layout"]
    (withTree pagesGlobals "DEFAULT" (addYield pagesTree "a" VNil))
  = Ok (withTree pagesGlobals "DEFAULT" (addYield pagesTree "c" VNil),
        inl "<html>C</html>").
Proof.
  split; [vm_compute; reflexivity|].
  rewrite (layout_render_after_render 2 2 pagesProcess defaultRender
             defaultRender "DEFAULT" "a" "c" VNil VNil
             [mkHTMLOptions "layout"] [mkHTMLOptions "layout"] pagesGlobals
             (withTree pagesGlobals "DEFAULT" (addYield pagesTree "a" VNil))
             (inl "<html>A</html>"));
    [vm_compute; reflexivity|reflexivity|vm_compute; reflexivity|discriminate].
Defined.

(** ** [SetTemplatePath] and [Renderer] *)

(** X23. [SetTemplatePath] with the empty set name acts on the default
    set, and on a set that was never registered it panics on the nil
    configuration, in either mode, before anything is compiled or
    changed. *)
Theorem SetTemplatePath_unknown_set (p : Process) (setName dir : string)
    (g : Globals) :
  tplSetOpts g !! match setName with
                  | EmptyString => "DEFAULT"
                  | _ => setName
                  end = None ->
  Render.SetTemplatePath p setName dir g = Panic NilDereference /\
  Render.SetTemplatePath p EmptyString dir g
  = Render.SetTemplatePath p "DEFAULT" dir g.
Proof.
  intros H. split; [|reflexivity].
  unfold Render.SetTemplatePath.
  destruct setName as [|a s].
  - change ((String.length EmptyString =? 0)%nat) with true. cbv iota.
    unfold _DEFAULT_TPL_SET_NAME. now rewrite H.
  - change ((String.length (String a s) =? 0)%nat) with false. cbv iota.
    now rewrite H.
Qed.

Lemma SetTemplatePath_unknown_set_witness :
  Render.SetTemplatePath (layoutProcess PROD Unix) "admin" "views"
    layoutGlobals = Panic NilDereference.
Proof.
  apply (SetTemplatePath_unknown_set (layoutProcess PROD Unix) "admin"
           "views" layoutGlobals).
  vm_compute. reflexivity.
Defined.

(** X24. A successful [SetTemplatePath] changes the directory of the
    registered configuration and nothing else of it, leaves the other
    configurations and the trees of the other sets alone, and installs
    the tree [compile] builds for the changed configuration: the
    placeholder is parsed under the name of the new directory and the
    walk is the one of the new directory.  Recompiling the set from its
    registered configuration, as a render in development mode does,
    then gives the same state. *)
Theorem SetTemplatePath_recompiles (p : Process) (setName dir : string)
    (g g' : Globals) (o : RenderOptions) :
  setName <> EmptyString ->
  registered g ->
  tplSetOpts g !! setName = Some o ->
  Render.SetTemplatePath p setName dir g = Ok g' ->
  tplSetOpts g' = <[setName := withDirectory o dir]> (tplSetOpts g) /\
  (forall key, key <> setName -> tplSets g' !! key = tplSets g !! key) /\
  (exists t,
     tplSets g' !! setName = Some t /\
     (t0 <- Must dir
              (template.Parse
                 (template.SetDelims (template.New dir)
                    (Left (Delims_ o)) (Right (Delims_ o)))
                 dir "Macaron") ;;
      walkAll (Host p) (withDirectory o dir) (Walk p dir) t0) = Ok t /\
     forall g0,
       compile p (Some (withDirectory o dir)) g0
       = Ok (withTree g0 setName t)) /\
  compile p (tplSetOpts g' !! setName) g' = Ok g'.
Proof.
  intros Hne Hreg Ho. unfold Render.SetTemplatePath.
  destruct setName as [|a s]; [congruence|].
  change ((String.length (String a s) =? 0)%nat) with false. cbv iota.
  rewrite Ho.
  pose proof (Hreg _ _ Ho) as Hname.
  set (o' := withDirectory o dir).
  intros H. rewrite compile_tree in H.
  change (Directory o') with dir in H.
  change (Delims_ o') with (Delims_ o) in H.
  destruct (t0 <- Must _ _ ;; walkAll _ _ _ t0) as [t| |] eqn:E;
    simpl in H; try discriminate.
  injection H as <-.
  change (Name o') with (Name o) in *. rewrite Hname in *.
  split; [reflexivity|].
  split; [intros key Hk; simpl; now rewrite lookup_insert_ne|].
  split.
  - exists t. split; [simpl; apply lookup_insert_eq|].
    split; [reflexivity|].
    intros g0. rewrite compile_tree.
    change (Directory o') with dir. change (Delims_ o') with (Delims_ o).
    rewrite E. simpl. change (Name o') with (Name o). now rewrite Hname.
  - simpl tplSetOpts. rewrite lookup_insert_eq.
    rewrite compile_tree.
    change (Directory o') with dir. change (Delims_ o') with (Delims_ o).
    rewrite E. simpl. change (Name o') with (Name o).
    rewrite Hname. unfold withTree. simpl. now rewrite insert_insert_eq.
Qed.

Lemma SetTemplatePath_recompiles_witness :
  (Directory <$> tplSetOpts movedGlobals !! "DEFAULT") = Some "views" /\
  compile (layoutProcess DEV Unix) (tplSetOpts movedGlobals !! "DEFAULT")
    movedGlobals = Ok movedGlobals.
Proof.
  destruct (SetTemplatePath_recompiles (layoutProcess DEV Unix) "DEFAULT"
              "views" layoutGlobals movedGlobals defaultOptions)
    as (Ho & _ & _ & Hc).
  - discriminate.
  - intros key o H.
    destruct (decide (key = "DEFAULT")) as [->|Hk].
    + vm_compute in H. injection H as <-. reflexivity.
    + change (tplSetOpts layoutGlobals)
        with (<["DEFAULT" := defaultOptions]> (∅ : gmap string RenderOptions))
        in H.
      rewrite lookup_insert_ne, lookup_empty in H by congruence.
      discriminate.
  - vm_compute. reflexivity.
  - vm_compute. reflexivity.
  - split; [now rewrite Ho, lookup_insert_eq|exact Hc].
Defined.

(** X25. What [Renderer] sets up when it returns: the resolved
    configuration is registered under its name with a compiled tree, the
    trees of the other sets are untouched, and every renderer that the
    handler builds is bound to the request's sink and that
    configuration, has not rendered yet, and carries the charset suffix
    of the configured charset (UTF-8 when none is configured), which a
    successful [JSON] then appends to [application/json]. *)
Theorem Renderer_handler (p : Process) (options : list RenderOptions)
    (g g' : Globals) (handler : ResponseWriter -> TplRender) :
  Renderer p options g = Ok (g', handler) ->
  let opt := snd (prepareOptions options g) in
  let charset := match Charset opt with
                 | EmptyString => "UTF-8"
                 | c => c
                 end in
  tplSetOpts g' !! Name opt = Some opt /\
  is_Some (tplSets g' !! Name opt) /\
  (forall key, key <> Name opt -> tplSets g' !! key = tplSets g !! key) /\
  (forall rw,
     handler rw = mkTplRender rw opt ("; charset=" +:+ charset) None) /\
  (forall rw m status v result,
     selectedJSON m (handler rw) v = inl result ->
     http.HeaderGet (RW (JSON m (handler rw) status v)) "Content-Type"
     = "application/json; charset=" +:+ charset).
Proof.
  unfold Renderer.
  destruct (prepareOptions options g) as [g0 opt] eqn:Ep.
  cbn [snd]. cbv beta iota zeta.
  assert (tplSetOpts g0 !! Name opt = Some opt /\ tplSets g0 = tplSets g)
    as [Hreg Htrees].
  { revert Ep. unfold prepareOptions. intros [= <- <-]. simpl.
    split; [apply lookup_insert_eq|reflexivity]. }
  destruct (compile p (Some opt) g0) as [g1| |] eqn:Ec;
    cbn [obind]; try discriminate.
  intros [= <- <-].
  apply compile_Ok in Ec as (t & -> & _). simpl.
  assert (forall rw,
            mkTplRender rw opt (prepareCharset (Charset opt)) None
            = mkTplRender rw opt
                ("; charset=" +:+ match Charset opt with
                                   | EmptyString => "UTF-8"
                                   | c => c
                                   end) None) as Hh.
  { intros rw. f_equal. unfold prepareCharset. now destruct (Charset opt). }
  split; [exact Hreg|].
  split; [rewrite lookup_insert_eq; eauto|].
  split; [intros key Hk; now rewrite lookup_insert_ne, Htrees|].
  split; [exact Hh|].
  intros rw m status v result Hm. rewrite Hh in Hm |- *.
  unfold JSON. fold (selectedJSON m
    (mkTplRender rw opt
       ("; charset=" +:+ match Charset opt with
                          | EmptyString => "UTF-8"
                          | c => c
                          end) None) v).
  rewrite Hm. simpl.
  destruct (0 <? _)%nat; unfold http.HeaderGet; simpl;
    now rewrite lookup_insert_eq.
Qed.

Lemma Renderer_handler_witness :
  xhtmlHandler emptySink = xhtmlRender /\
  http.HeaderGet (RW (JSON sampleMarshalers (xhtmlHandler emptySink) 200 VNil))
    "Content-Type" = "application/json; charset=ISO-8859-1".
Proof.
  destruct (Renderer_handler (layoutProcess PROD Unix) [xhtmlOptions]
              emptyGlobals xhtmlGlobals xhtmlHandler)
    as (_ & _ & _ & Hh & Hj); [vm_compute; reflexivity|].
  split; [reflexivity|].
  apply (Hj emptySink sampleMarshalers 200%Z VNil "null"). reflexivity.
Defined.

(** ** Static templates *)

Lemma tDelims_fold_Funcs fms t :
  tDelims (fold_left template.Funcs fms t) = tDelims t.
Proof.
  revert t. induction fms as [|fm fms IH]; intros t; simpl; [reflexivity|].
  now rewrite IH.
Qed.

Lemma Parse_static t name text :
  String.index 0 (template.leftDelim (tDelims t)) text = None ->
  template.Parse t name text
  = Some (mkTemplate (tName t) (tDelims t) (tFuncs t)
            (<[name := staticBody text]> (tSet t))).
Proof.
  intros H. unfold template.Parse. simpl. now rewrite H.
Qed.

Lemma forExtensions_static h options e r ext extensions t t' text :
  forExtensions h options e r ext extensions t = Ok t' ->
  ext ∈ extensions ->
  contents e = Some text ->
  String.index 0 (template.leftDelim (tDelims t)) text = None ->
  tSet t' = <[filepath.ToSlash h
                (take_bytes (String.length r - String.length ext) r)
              := staticBody text]> (tSet t) /\
  tDelims t' = tDelims t.
Proof.
  intros H Hin Hc Hs. induction extensions as [|x xs IH];
    [now apply elem_of_nil in Hin|].
  simpl in H. destruct (String.eqb_spec ext x) as [->|Hne].
  - rewrite Hc in H. rewrite Parse_static in H.
    + injection H as <-. simpl. now rewrite tSet_fold_Funcs, tDelims_fold_Funcs.
    + simpl. now rewrite tDelims_fold_Funcs.
  - apply IH; [exact H|].
    apply elem_of_cons in Hin as [?|?]; [congruence|assumption].
Qed.

Lemma walkFn_delims h options t e t' :
  walkFn h options t e = Ok t' -> tDelims t' = tDelims t.
Proof.
  unfold walkFn. generalize (Extensions options) as exts.
  induction exts as [|x xs IH]; simpl; [now intros [= <-]|].
  destruct (String.eqb _ x); [|exact IH].
  destruct (contents e) as [buf|]; [|discriminate].
  intros H%Must_Ok. apply Parse_Some in H as [body ->]. simpl.
  apply tDelims_fold_Funcs.
Qed.

Lemma walkAll_delims h options entries t t' :
  walkAll h options entries t = Ok t' -> tDelims t' = tDelims t.
Proof.
  revert t. induction entries as [|e es IH]; intros t; simpl;
    [now intros [= <-]|].
  destruct (walkFn h options t e) as [t1| |] eqn:E; simpl; try discriminate.
  intros H. rewrite (IH _ H). now apply walkFn_delims in E.
Qed.

Lemma walkAll_app h options l1 l2 t :
  walkAll h options (l1 ++ l2) t
  = (t1 <- walkAll h options l1 t ;; walkAll h options l2 t1).
Proof.
  revert t. induction l1 as [|e l1 IH]; intros t; simpl; [reflexivity|].
  destruct (walkFn h options t e) as [t1| |]; simpl; [apply IH| |];
    reflexivity.
Qed.

Lemma walkAll_keeps h options entries t t' name :
  walkAll h options entries t = Ok t' ->
  (forall e, e ∈ entries -> matched h options e = true ->
             nodeName h e <> name) ->
  tSet t' !! name = tSet t !! name.
Proof.
  revert t. induction entries as [|e es IH]; intros t; simpl;
    [now intros [= <-]|].
  destruct (walkFn h options t e) as [t1| |] eqn:E; simpl; try discriminate.
  intros H Hn. rewrite (IH _ H).
  - apply walkFn_Ok in E as [[_ ->]|[Hm (buf & body & _ & -> & _)]];
      [reflexivity|].
    apply lookup_insert_ne. apply (Hn e); [apply list_elem_of_here|exact Hm].
  - intros e' He'. apply Hn. now apply list_elem_of_further.
Qed.

(** X26. A static template is served as it is.  Take a directory whose
    template files hold no action (no left delimiter occurs in a matched
    file), none of them named like the directory, and in it a matched
    file with a template name of its own, whose text is not empty and
    holds no [<].  After a successful [compile], [HTMLSetString] without
    layout, in production mode, renders that template as exactly the
    text of the file, and the registries stay as they are.  (Without
    action no file defines further templates, and text without [<] is
    text the engine's escaper leaves alone.) *)
Theorem static_template_verbatim (fuel : nat) (p : Process)
    (r : TplRender) (options : RenderOptions) (v : value)
    (htmlOpt : list HTMLOptions) (g g' : Globals)
    (before after : list entry) (e : entry) (text : string) :
  Env p = PROD ->
  compile p (Some options) g = Ok g' ->
  Walk p (Directory options) = (before ++ e :: after)%list ->
  matched (Host p) options e = true ->
  contents e = Some text ->
  text <> EmptyString ->
  strings.ContainsByte text (ascii_of_nat 60) = false ->
  (forall e' text',
     e' ∈ Walk p (Directory options) ->
     matched (Host p) options e' = true ->
     contents e' = Some text' ->
     String.index 0 (template.leftDelim (Delims_ options)) text' = None) ->
  (forall e',
     e' ∈ Walk p (Directory options) ->
     matched (Host p) options e' = true ->
     nodeName (Host p) e' <> Directory options) ->
  (forall e',
     e' ∈ (before ++ after)%list ->
     matched (Host p) options e' = true ->
     nodeName (Host p) e' <> nodeName (Host p) e) ->
  resolvedLayout r htmlOpt = EmptyString ->
  HTMLSetString (S fuel) p r (Name options) (nodeName (Host p) e) v htmlOpt g'
  = Ok (g', (text, None)).
Proof.
  intros He Hc Hw Hm Ht Htext Hlt Hstatic Hroot Hown Hl.
  assert (String.index 0 (template.leftDelim (Delims_ options)) text = None)
    as Hs.
  { apply (Hstatic e text); [|exact Hm|exact Ht].
    rewrite Hw. apply elem_of_app. right. apply list_elem_of_here. }
  assert (forall e', e' ∈ after -> matched (Host p) options e' = true ->
                     nodeName (Host p) e' <> nodeName (Host p) e) as Hlast.
  { intros e' He'. apply Hown, elem_of_app. now right. }
  rewrite compile_tree in Hc.
  destruct (Must _ _) as [t0| |] eqn:E0; simpl in Hc; try discriminate.
  destruct (walkAll _ _ _ t0) as [t| |] eqn:E1; simpl in Hc;
    try discriminate.
  injection Hc as <-.
  assert (tDelims t0 = Delims_ options) as Hd0.
  { apply Must_Ok, Parse_Some in E0 as [body ->]. simpl.
    now destruct (Delims_ options). }
  rewrite Hw, walkAll_app in E1.
  destruct (walkAll _ _ before t0) as [t1| |] eqn:Eb; simpl in E1;
    try discriminate.
  destruct (walkFn (Host p) options t1 e) as [t2| |] eqn:Ee; simpl in E1;
    try discriminate.
  assert (tSet t !! nodeName (Host p) e = Some (staticBody text)) as Hnode.
  { rewrite (walkAll_keeps _ _ _ _ _ _ E1 Hlast).
    unfold walkFn in Ee. apply bool_decide_eq_true in Hm.
    apply (forExtensions_static _ _ _ _ _ _ _ _ text) in Ee as [-> _];
      [apply lookup_insert_eq|exact Hm|exact Ht|].
    now rewrite (walkAll_delims _ _ _ _ _ Eb), Hd0. }
  unfold HTMLSetString, renderHTMLString.
  rewrite (renderBytes_resolved (S fuel) p r (Name options) _ v htmlOpt
             (withTree g (Name options) t) (withTree g (Name options) t) t);
    [| unfold recompiled; now rewrite He | simpl; apply lookup_insert_eq].
  rewrite Hl. simpl. rewrite execute_ExecuteTemplate. simpl.
  rewrite Hnode. now destruct text.
Qed.

Lemma static_template_verbatim_witness :
  HTMLSetString 1 (notesProcess (Some "x")) defaultRender "DEFAULT" "index"
    VNil [] notesGlobals
  = Ok (notesGlobals, ("home", None)).
Proof.
  apply (static_template_verbatim 0 (notesProcess (Some "x")) defaultRender
           defaultOptions VNil [] emptyGlobals notesGlobals
           [rootEntry]
           [mkEntry ["notes.txt"] (Some "x")]
           (mkEntry ["index.tmpl"] (Some "home")) "home").
  - reflexivity.
  - vm_compute. reflexivity.
  - reflexivity.
  - vm_compute. reflexivity.
  - reflexivity.
  - discriminate.
  - reflexivity.
  - intros e' text' He' Hm' Hc'.
    apply elem_of_cons in He' as [->|He']; [discriminate|].
    apply elem_of_cons in He' as [->|He'];
      [injection Hc' as <-; reflexivity|].
    apply list_elem_of_singleton in He'. subst e'. discriminate.
  - intros e' He' Hm'.
    apply elem_of_cons in He' as [->|He']; [discriminate|].
    apply elem_of_cons in He' as [->|He']; [discriminate|].
    apply list_elem_of_singleton in He'. subst e'. discriminate.
  - intros e' He' Hm'.
    apply elem_of_cons in He' as [->|He']; [discriminate|].
    apply list_elem_of_singleton in He'. subst e'. discriminate.
  - reflexivity.
Defined.
